(** * Joe Learn backend: the REST handlers of [server.js]

    A shallow embedding of the Express application of [src/server.js]
    together with the credentials of [cloudinaryConfig.js].

    - JavaScript values are an inductive type [value]; a plain object
      (request body, Firestore document, JSON reply) is a finite map from
      property names to values, and reading a missing property yields
      [VUndefined], as in JavaScript.
    - Handlers are written in a state-and-exception monad [M] over a
      [World] holding the two Firestore collections, the list of
      [cloudinary.uploader.destroy] calls made so far, and what was
      written with [console.error].
    - The clock readings, the two library functions that a handler calls
      ([cloudinary.utils.api_sign_request], [Date#toISOString]) and the
      answer of the storage provider to a destroy call are supplied per
      request by an [env]: the signing function and the provider may
      return or throw.
    - The Firestore client is an external service.  It is modelled from
      the store contract of the specification, as reliable: a call fails
      only for a logical reason (updating a document that does not
      exist), never for a transport reason.
    - A request is taken after routing and body parsing: [request] names
      the route, its path parameter and [req.body].  The request logger,
      which writes to standard output, is left out. *)

From Stdlib Require Import ZArith Lia Ascii.
From stdpp Require Import base option list sorting strings gmap fin_maps.

Set Warnings "-register-all".
Local Open Scope string_scope.

(** ** JavaScript values *)

(** A JavaScript number.  [NFrac m e] is the double [m / 2^e]; it is how
    every finite double that is not an integer is written. *)
Inductive number :=
| NInt (z : Z)
| NNegZero
| NNaN
| NInf (negative : bool)
| NFrac (m : Z) (e : positive).

Inductive value :=
| VUndefined
| VNull
| VBool (b : bool)
| VNum (n : number)
| VStr (s : string)
| VArray (items : list value)
| VObject (fields : list (string * value))
| VTimestamp (t : Z)          (* a stored Firestore Timestamp *)
| VServerTimestamp            (* the sentinel FieldValue.serverTimestamp() *)
| VIncrement (n : Z).         (* the sentinel FieldValue.increment(n) *)

Abbreviation object := (gmap string value).

Definition VInt (z : Z) : value := VNum (NInt z).

(** ToBoolean: what [!v] tests. *)
Definition truthy (v : value) : bool :=
  match v with
  | VUndefined | VNull => false
  | VBool b => b
  | VNum (NInt z) => negb (z =? 0)%Z
  | VNum NNegZero | VNum NNaN => false
  | VNum (NInf _) => true
  | VNum (NFrac m _) => negb (m =? 0)%Z
  | VStr EmptyString => false
  | VStr (String _ _) => true
  | VArray _ | VObject _ | VTimestamp _ | VServerTimestamp | VIncrement _ => true
  end.

(** [v === undefined]. *)
Definition is_undefined (v : value) : bool :=
  match v with VUndefined => true | _ => false end.

(** Property read [o.k]; also what destructuring [const { k } = o] binds. *)
Definition get (o : object) (k : string) : value := default VUndefined (o !! k).

(** Object spread [{ ...target, ...source }]: the properties of [source]
    are copied over those of [target]. *)
Definition assign (target source : object) : object := source ∪ target.

(** ** Replies, errors and the world *)

Inductive payload :=
| JObject (o : object)
| JArray (items : list object).

(** [res.status(code).json(value)]: the status and the value handed to
    [json]. *)
Record response := { status : Z; body : payload }.

Definition respond (code : Z) (o : object) : response :=
  {| status := code; body := JObject o |}.

Definition message (text : string) : object := {[ "message" := VStr text ]}.

Inductive error :=
| NotFound (path : string)
| LibraryError (detail : string).

Definition detail_of (err : error) : string :=
  match err with
  | NotFound path => "5 NOT_FOUND: No document to update: " +:+ path
  | LibraryError detail => detail
  end.

Inductive collection := Videos | Assessments.

Definition collection_name (c : collection) : string :=
  match c with Videos => "videos" | Assessments => "assessments" end.

Record World := {
  videos : gmap string object;
  assessments : gmap string object;
  destroyed : list (value * string);
  stderr : list (string * error)
}.

Definition empty_world : World :=
  {| videos := ∅; assessments := ∅; destroyed := []; stderr := [] |}.

Definition docs (c : collection) (w : World) : gmap string object :=
  match c with Videos => videos w | Assessments => assessments w end.

Definition set_docs (c : collection) (d : gmap string object) (w : World) : World :=
  match c with
  | Videos =>
      {| videos := d; assessments := assessments w;
         destroyed := destroyed w; stderr := stderr w |}
  | Assessments =>
      {| videos := videos w; assessments := d;
         destroyed := destroyed w; stderr := stderr w |}
  end.

(** What one request sees of the outside: the JavaScript clock
    ([new Date().getTime()], milliseconds), the commit time the database
    puts in place of a server timestamp, the two library functions, and
    how the promise of [cloudinary.uploader.destroy(public_id,
    { resource_type })] settles: rejected with an error, or fulfilled. *)
Record env := {
  js_now : Z;
  store_now : Z;
  api_sign_request : object → string → error + string;
  toISOString : Z → string;
  uploader_destroy : value → string → error + unit
}.

(** ** The handler monad: state of the world, and exceptions *)

Inductive outcome (A : Type) :=
| Normal (a : A)
| Thrown (err : error).
Arguments Normal {A} a.
Arguments Thrown {A} err.

Definition M (A : Type) : Type := World → outcome A * World.

Definition ret {A} (a : A) : M A := λ w, (Normal a, w).

Definition throw {A} (err : error) : M A := λ w, (Thrown err, w).

Definition bind {A B} (m : M A) (k : A → M B) : M B :=
  λ w, match m w with
       | (Normal a, w') => k a w'
       | (Thrown err, w') => (Thrown err, w')
       end.

Definition try_catch {A} (m : M A) (handler : error → M A) : M A :=
  λ w, match m w with
       | (Normal a, w') => (Normal a, w')
       | (Thrown err, w') => handler err w'
       end.

Notation "'let*' x := m 'in' k" := (bind m (λ x, k))
  (at level 10, x name, m at level 100, k at level 200).
Notation "m ;;; k" := (bind m (λ _, k))
  (at level 100, k at level 200, right associativity).

Definition console_error (label : string) (err : error) : M unit :=
  λ w, (Normal (),
        {| videos := videos w; assessments := assessments w;
           destroyed := destroyed w; stderr := stderr w ++ [(label, err)] |}).

(** ** The document database *)

(* The Firestore client ([db], [FieldValue]) is an external service with
   no code of its own in the repository.  The operations below follow the
   Metadata Store Client contract of the specification (create, getOne,
   field update and increment, delete, ordered list), and the Firestore
   documentation where the contract is silent: an increment of a field
   that holds no number stores the operand, and an ordered query leaves
   out the documents that lack the ordering field.  Integers are not
   bounded. *)

Definition document_path (c : collection) (id : string) : string :=
  collection_name c +:+ "/" +:+ id.

(** Modelled from the spec: the field transforms of the Firestore client
    ([FieldValue.serverTimestamp], [FieldValue.increment]), which is not in
    the repository.  What the store writes for a field given its previous
    content: a server timestamp becomes the commit time, an increment is
    an atomic add on the stored number, any other value is stored as it
    is. *)
Definition resolve (now : Z) (old : option value) (v : value) : value :=
  match v with
  | VServerTimestamp => VTimestamp now
  | VIncrement n =>
      match old with
      | Some (VNum (NInt z)) => VInt (z + n)
      | Some (VNum NNaN) => VNum NNaN
      | Some (VNum (NInf s)) => VNum (NInf s)
      | Some (VNum (NFrac m e)) => VNum (NFrac (m + n * Z.pos (2 ^ e)) e)
      | _ => VInt n
      end
  | _ => v
  end.

(** Modelled from the spec: [collection(c).add(data)] of the Firestore
    client, which is not in the repository; the contract's
    [create(fields)].  The store picks an identifier unused in the
    collection and writes the document under it. *)
Definition store_add (c : collection) (now : Z) (data : object) : M string :=
  λ w, let id := fresh (dom (docs c w)) in
       (Normal id, set_docs c (<[id := resolve now None <$> data]> (docs c w)) w).

(** Modelled from the spec: [collection(c).doc(id).get()] of the
    Firestore client, which is not in the repository; the contract's
    [getOne(id)].  The snapshot: [None] when the document does not
    exist. *)
Definition store_get (c : collection) (id : string) : M (option object) :=
  λ w, (Normal (docs c w !! id), w).

Definition apply_update (now : Z) (changes doc : object) : object :=
  map_imap (λ k v, Some (resolve now (doc !! k) v)) changes ∪ doc.

(** Modelled from the spec: [collection(c).doc(id).update(changes)] of
    the Firestore client, which is not in the repository; the contract's
    [incrementField] and [updateField].  Fails with NotFound when the
    document does not exist; the listed fields are written, the others
    are kept. *)
Definition store_update (c : collection) (now : Z) (id : string)
    (changes : object) : M unit :=
  λ w, match docs c w !! id with
       | None => (Thrown (NotFound (document_path c id)), w)
       | Some doc =>
           (Normal (), set_docs c (<[id := apply_update now changes doc]> (docs c w)) w)
       end.

(** Modelled from the spec: [collection(c).doc(id).delete()] of the
    Firestore client, which is not in the repository; the contract's
    [delete(id)], which fails with NotFound when the document is
    absent. *)
Definition store_delete (c : collection) (id : string) : M unit :=
  λ w, match docs c w !! id with
       | None => (Thrown (NotFound (document_path c id)), w)
       | Some _ => (Normal (), set_docs c (delete id (docs c w)) w)
       end.

(** The sort key of an ordered query: values are grouped by type in the
    store's type order (null, boolean, number, timestamp, string, array,
    map); timestamps are compared by their instant.  The order inside the
    other groups is not modelled. *)
Definition order_key (v : value) : Z * Z :=
  match v with
  | VNull => (0, 0)
  | VBool _ => (1, 0)
  | VNum _ => (2, 0)
  | VTimestamp t => (3, t)
  | VStr _ => (4, 0)
  | VArray _ => (5, 0)
  | VObject _ => (6, 0)
  | VUndefined | VServerTimestamp | VIncrement _ => (7, 0)
  end%Z.

Definition key_le (a b : Z * Z) : Prop :=
  (a.1 < b.1 ∨ (a.1 = b.1 ∧ a.2 ≤ b.2))%Z.

Definition descending (field : string) (x y : string * object) : Prop :=
  key_le (order_key (get y.2 field)) (order_key (get x.2 field)).

#[global] Instance descending_dec field x y : Decision (descending field x y).
Proof. unfold descending, key_le. apply _. Defined.

Definition has_field (field : string) (x : string * object) : Prop :=
  is_Some (x.2 !! field).

(** Modelled from the spec: [collection(c).orderBy(field, 'desc').get()]
    of the Firestore client, which is not in the repository; the
    contract's [list()].  Every document that has the field, greatest
    value first, with no limit. *)
Definition query_desc (field : string) (coll : gmap string object)
    : list (string * object) :=
  merge_sort (descending field) (filter (has_field field) (map_to_list coll)).

Definition store_list_desc (c : collection) (field : string)
    : M (list (string * object)) :=
  λ w, (Normal (query_desc field (docs c w)), w).

(** ** The storage provider *)

(** [cloudinaryConfig.js]: the credentials given to [cloudinary.config]. *)
Record cloudinary_options := {
  cloud_name : string;
  api_key : string;
  api_secret : string
}.

Definition cloudinary_config : cloudinary_options :=
  {| cloud_name := "dszqqhrjv";
     api_key := "593179499237439";
     api_secret := "4SN0tLHVVGP3b3C_KbUhM1sBOf4" |}.

(** [await cloudinary.uploader.destroy(public_id, { resource_type })]: the
    call is recorded, then the promise settles as the provider decides; a
    rejection is thrown to the caller, the value of a fulfilment is not
    used. *)
Definition cloudinary_destroy (e : env) (public_id : value) (resource_type : string)
    : M unit :=
  λ w, (match uploader_destroy e public_id resource_type with
        | inr _ => Normal ()
        | inl err => Thrown err
        end,
        {| videos := videos w; assessments := assessments w;
           destroyed := destroyed w ++ [(public_id, resource_type)];
           stderr := stderr w |}).

(** A library call that either returns or throws. *)
Definition lift {A} (r : error + A) : M A :=
  match r with inl err => throw err | inr a => ret a end.

(** ** The routes of [apiRouter] *)

Inductive request :=
| GET_root
| POST_generate_signature (req_body : object)
| GET_videos
| POST_upload_video (req_body : object)
| POST_videos_view (id : string)
| POST_videos_complete (id : string)
| GET_assessments
| POST_upload_assessment (req_body : object)
| PUT_assessments (id : string) (req_body : object)
| DELETE_assessments (id : string).

(** [Math.round(ms / 1000)]: ties go up. *)
Definition round_seconds (ms : Z) : Z := ((ms + 500) / 1000)%Z.

(** [{ timestamp: timestamp, ...req.body }]. *)
Definition params_to_sign (timestamp : Z) (req_body : object) : object :=
  assign {[ "timestamp" := VInt timestamp ]} req_body.

Definition health_check : M response :=
  ret (respond 200 (message "Joe Learn API is running!")).

Definition generate_signature (e : env) (req_body : object) : M response :=
  let timestamp := round_seconds (js_now e) in
  let params := params_to_sign timestamp req_body in
  try_catch
    (let* signature := lift (api_sign_request e params (api_secret cloudinary_config)) in
     ret (respond 200
            {[ "signature" := VStr signature;
               "timestamp" := VInt timestamp;
               "api_key" := VStr (api_key cloudinary_config);
               "cloud_name" := VStr (cloud_name cloudinary_config) ]}))
    (λ error,
       console_error "Error generating Cloudinary signature:" error ;;;
       ret (respond 500 (message "Could not generate upload signature."))).

(** [snapshot.docs.map(doc => ({ id: doc.id, ...doc.data() }))]. *)
Definition with_id (doc : string * object) : object :=
  assign {[ "id" := VStr doc.1 ]} doc.2.

Definition list_records (c : collection) (label : string) : M response :=
  try_catch
    (let* snapshot := store_list_desc c "createdAt" in
     ret {| status := 200; body := JArray (with_id <$> snapshot) |})
    (λ error, console_error label error ;;; throw error).

Definition get_videos : M response :=
  list_records Videos "Error fetching videos:".

Definition get_assessments : M response :=
  list_records Assessments "Error fetching assessments:".

Definition newVideoData (title subject teacherName url public_id duration : value)
    : object :=
  {[ "title" := title;
     "subject" := subject;
     "teacher" := teacherName;
     "url" := url;
     "public_id" := public_id;
     "duration" := duration;
     "views" := VInt 0;
     "completions" := VInt 0;
     "createdAt" := VServerTimestamp ]}.

Definition upload_video (e : env) (req_body : object) : M response :=
  try_catch
    (let title := get req_body "title" in
     let teacherName := get req_body "teacherName" in
     let subject := get req_body "subject" in
     let url := get req_body "url" in
     let public_id := get req_body "public_id" in
     let duration := get req_body "duration" in
     if negb (truthy title) || negb (truthy teacherName) || negb (truthy subject)
        || negb (truthy url) || negb (truthy public_id) || is_undefined duration
     then ret (respond 400 (message "Missing required video data."))
     else
       let data := newVideoData title subject teacherName url public_id duration in
       let* docRef_id := store_add Videos (store_now e) data in
       let newVideo :=
         <[ "createdAt" := VStr (toISOString e (js_now e)) ]>
           (assign {[ "id" := VStr docRef_id ]} data) in
       ret (respond 201 newVideo))
    (λ error, console_error "Error saving video metadata:" error ;;; throw error).

Definition increment_video (e : env) (id field ack label : string) : M response :=
  try_catch
    (store_update Videos (store_now e) id {[ field := VIncrement 1 ]} ;;;
     ret (respond 200 (message ack)))
    (λ error, console_error label error ;;; throw error).

Definition view_video (e : env) (id : string) : M response :=
  increment_video e id "views" "View count updated successfully."
    "Error updating view count:".

Definition complete_video (e : env) (id : string) : M response :=
  increment_video e id "completions" "Completion count updated successfully."
    "Error updating completion count:".

Definition newAssessmentData (title teacherName url public_id : value) : object :=
  {[ "title" := title;
     "teacher" := teacherName;
     "url" := url;
     "public_id" := public_id;
     "createdAt" := VServerTimestamp ]}.

Definition upload_assessment (e : env) (req_body : object) : M response :=
  try_catch
    (let title := get req_body "title" in
     let teacherName := get req_body "teacherName" in
     let url := get req_body "url" in
     let public_id := get req_body "public_id" in
     if negb (truthy title) || negb (truthy teacherName)
        || negb (truthy url) || negb (truthy public_id)
     then ret (respond 400 (message "Missing required assessment data."))
     else
       let data := newAssessmentData title teacherName url public_id in
       let* docRef_id := store_add Assessments (store_now e) data in
       let newAssessment :=
         <[ "createdAt" := VStr (toISOString e (js_now e)) ]>
           (assign {[ "id" := VStr docRef_id ]} data) in
       ret (respond 201 newAssessment))
    (λ error, console_error "Error saving assessment metadata:" error ;;; throw error).

Definition update_assessment (e : env) (id : string) (req_body : object) : M response :=
  try_catch
    (let title := get req_body "title" in
     if negb (truthy title)
     then ret (respond 400 (message "New title is required."))
     else
       store_update Assessments (store_now e) id {[ "title" := title ]} ;;;
       ret (respond 200 (message "Assessment updated successfully.")))
    (λ error, console_error "Error updating assessment:" error ;;; throw error).

Definition delete_assessment (e : env) (id : string) : M response :=
  try_catch
    (let* doc := store_get Assessments id in
     match doc with
     | None => ret (respond 404 (message "Assessment not found."))
     | Some data =>
         let public_id := get data "public_id" in
         (if truthy public_id then cloudinary_destroy e public_id "raw" else ret ()) ;;;
         store_delete Assessments id ;;;
         ret (respond 200 (message "Assessment deleted successfully."))
     end)
    (λ error, console_error "Error deleting assessment:" error ;;; throw error).

Definition route (e : env) (req : request) : M response :=
  match req with
  | GET_root => health_check
  | POST_generate_signature req_body => generate_signature e req_body
  | GET_videos => get_videos
  | POST_upload_video req_body => upload_video e req_body
  | POST_videos_view id => view_video e id
  | POST_videos_complete id => complete_video e id
  | GET_assessments => get_assessments
  | POST_upload_assessment req_body => upload_assessment e req_body
  | PUT_assessments id req_body => update_assessment e id req_body
  | DELETE_assessments id => delete_assessment e id
  end.

(** The global error handler, reached through [next(error)]. *)
Definition internal_error_text : string :=
  "An internal server error occurred. Please check the server logs for details.".

Definition error_handler (err : error) (w : World) : response * World :=
  (respond 500 (message internal_error_text),
   (console_error "An unhandled error occurred:" err w).2).

(** One request through the application: the reply sent and the world
    left behind.  An error passed to [next] ends in [error_handler]. *)
Definition app (e : env) (req : request) (w : World) : response * World :=
  match route e req w with
  | (Normal r, w') => (r, w')
  | (Thrown err, w') => error_handler err w'
  end.

(** A run of requests, each with its own environment. *)
Definition run (trace : list (env * request)) (w : World) : World :=
  foldl (λ w' step, (app step.1 step.2 w').2) w trace.

Inductive reachable : World → Prop :=
| reachable_start : reachable empty_world
| reachable_step e req w : reachable w → reachable (app e req w).2.

(** ** Vocabulary of the statements *)

(** The world after more lines were written with [console.error]. *)
Definition logged (entries : list (string * error)) (w : World) : World :=
  {| videos := videos w; assessments := assessments w;
     destroyed := destroyed w; stderr := stderr w ++ entries |}.

(** The world after one more [cloudinary.uploader.destroy] call. *)
Definition after_destroy (public_id : value) (resource_type : string)
    (w : World) : World :=
  {| videos := videos w; assessments := assessments w;
     destroyed := destroyed w ++ [(public_id, resource_type)];
     stderr := stderr w |}.

(** A [FieldValue] sentinel.  No request body holds one: a body is the
    result of parsing JSON text. *)
Definition is_field_value (v : value) : bool :=
  match v with VServerTimestamp | VIncrement _ => true | _ => false end.

(** Every property of the object is plain data, as in a request body. *)
Definition parsed (o : object) : Prop :=
  map_Forall (λ _ v, is_field_value v = false) o.

(** [needle] occurs in [hay] as a contiguous piece. *)
Definition occurs_in (needle hay : string) : Prop :=
  ∃ before after, hay = before +:+ needle +:+ after.

Fixpoint has_char (c : Ascii.ascii) (s : string) : bool :=
  match s with
  | EmptyString => false
  | String c' s' => if Ascii.eqb c c' then true else has_char c s'
  end.

Fixpoint all_chars (P : Ascii.ascii → bool) (s : string) : bool :=
  match s with
  | EmptyString => true
  | String c s' => P c && all_chars P s'
  end.

Definition is_hex_digit (c : Ascii.ascii) : bool :=
  let n := Ascii.nat_of_ascii c in
  (Nat.leb 48 n && Nat.leb n 57) || (Nat.leb 97 n && Nat.leb n 102).

(** The text is a hexadecimal digest, as [api_sign_request] returns. *)
Definition hex_digest (s : string) : bool := all_chars is_hex_digit s.

(** The text occurs somewhere in a value. *)
Fixpoint mentions (needle : string) (v : value) : Prop :=
  match v with
  | VStr s => occurs_in needle s
  | VArray items =>
      (fix any (l : list value) : Prop :=
         match l with
         | [] => False
         | x :: l' => mentions needle x ∨ any l'
         end) items
  | VObject fields =>
      (fix any (l : list (string * value)) : Prop :=
         match l with
         | [] => False
         | (k, x) :: l' => occurs_in needle k ∨ mentions needle x ∨ any l'
         end) fields
  | _ => False
  end.

Definition object_mentions (needle : string) (o : object) : Prop :=
  ∃ k v, o !! k = Some v ∧ (occurs_in needle k ∨ mentions needle v).

Definition payload_mentions (needle : string) (p : payload) : Prop :=
  match p with
  | JObject o => object_mentions needle o
  | JArray items => ∃ o, o ∈ items ∧ object_mentions needle o
  end.

(** The check of the required fields of a video, as one test. *)
Definition video_refused (req_body : object) : bool :=
  negb (truthy (get req_body "title")) || negb (truthy (get req_body "teacherName"))
  || negb (truthy (get req_body "subject")) || negb (truthy (get req_body "url"))
  || negb (truthy (get req_body "public_id"))
  || is_undefined (get req_body "duration").

(** The entry of a list reply for a document, [{ id: doc.id, ...doc.data() }],
    said property by property: the data of the document, and its
    identifier as [id] unless the data has an [id] of its own. *)
Definition entry_of (id : string) (doc item : object) : Prop :=
  ∀ k, item !! k =
       match doc !! k with
       | Some v => Some v
       | None => if decide (k = "id") then Some (VStr id) else None
       end.

(** The list request of each collection. *)
Definition list_request (c : collection) : request :=
  match c with Videos => GET_videos | Assessments => GET_assessments end.

(** How many requests of a run increment a counter of video [id]. *)
Definition is_view (id : string) (req : request) : bool :=
  match req with POST_videos_view id' => bool_decide (id' = id) | _ => false end.

Definition is_complete (id : string) (req : request) : bool :=
  match req with POST_videos_complete id' => bool_decide (id' = id) | _ => false end.

Fixpoint tally (p : request → bool) (trace : list (env * request)) : Z :=
  match trace with
  | [] => 0
  | step :: rest => (if p step.2 then 1 else 0) + tally p rest
  end%Z.

(** The data model of the stored records, as far as the handlers rely on
    it: a video has two counters that are non-negative integers, and every
    record has a creation timestamp. *)
Definition is_counter (doc : object) (field : string) : Prop :=
  ∃ n : Z, (0 ≤ n)%Z ∧ doc !! field = Some (VInt n).

Definition is_created (doc : object) : Prop :=
  ∃ t : Z, doc !! "createdAt" = Some (VTimestamp t).

Definition video_ok (doc : object) : Prop :=
  is_counter doc "views" ∧ is_counter doc "completions" ∧ is_created doc.

Definition store_ok (w : World) : Prop :=
  (∀ id doc, videos w !! id = Some doc → video_ok doc) ∧
  (∀ id doc, assessments w !! id = Some doc → is_created doc).

(** The record written for a video, as the store holds it. *)
Definition stored_video (now : Z)
    (title subject teacherName url public_id duration : value) : object :=
  <[ "createdAt" := VTimestamp now ]>
    (newVideoData title subject teacherName url public_id duration).

(** The record returned for a created video. *)
Definition returned_video (id iso : string)
    (title subject teacherName url public_id duration : value) : object :=
  <[ "createdAt" := VStr iso ]>
    (<[ "id" := VStr id ]>
       (newVideoData title subject teacherName url public_id duration)).

(** ** Sample data *)

Definition sample_env : env :=
  {| js_now := 1700000000499;
     store_now := 1700000000000000;
     api_sign_request := λ _ _, inr "da39a3ee5e6b4b0d3255bfef95601890afd80709";
     toISOString := λ _, "2023-11-14T22:13:20.499Z";
     uploader_destroy := λ _ _, inr () |}.

Definition later_env : env :=
  {| js_now := 1700000060000;
     store_now := 1700000060000000;
     api_sign_request := λ _ _, inl (LibraryError "Must supply api_secret");
     toISOString := λ _, "2023-11-14T22:14:20.000Z";
     uploader_destroy := λ _ _, inr () |}.

(** An environment in which the storage provider rejects every call. *)
Definition outage_env : env :=
  {| js_now := 1700000120000;
     store_now := 1700000120000000;
     api_sign_request := λ _ _, inr "da39a3ee5e6b4b0d3255bfef95601890afd80709";
     toISOString := λ _, "2023-11-14T22:15:20.000Z";
     uploader_destroy := λ _ _, inl (LibraryError "Request Timeout") |}.

Definition sample_video_body (title duration : value) : object :=
  {[ "title" := title;
     "teacherName" := VStr "Ms. Lee";
     "subject" := VStr "Algebra";
     "url" := VStr "https://res.cloudinary.com/dszqqhrjv/video/upload/v1/a.mp4";
     "public_id" := VStr "joe-learn-videos/a";
     "duration" := duration ]}.

Definition sample_assessment (public_id : value) : object :=
  {[ "title" := VStr "Quiz 1";
     "teacher" := VStr "Ms. Lee";
     "url" := VStr "https://res.cloudinary.com/dszqqhrjv/raw/upload/v1/q1.pdf";
     "public_id" := public_id;
     "createdAt" := VTimestamp 1690000000000000 ]}.

Definition sample_world (public_id : value) : World :=
  {| videos := ∅;
     assessments := {[ "q1" := sample_assessment public_id ]};
     destroyed := [];
     stderr := [] |}.

Definition sample_video (views : Z) : object :=
  <[ "views" := VInt views ]>
    (stored_video 1690000000000000 (VStr "Fractions") (VStr "Algebra") (VStr "Ms. Lee")
       (VStr "https://res.cloudinary.com/dszqqhrjv/video/upload/v1/f.mp4")
       (VStr "joe-learn-videos/f") (VNum (NFrac 25 1))).

(** Two videos created one minute apart, then one view of the first. *)
Definition sample_library : World :=
  run [(sample_env, POST_upload_video (sample_video_body (VStr "Fractions") (VInt 0)));
       (later_env, POST_upload_video (sample_video_body (VStr "Decimals") (VInt 95)));
       (later_env, POST_videos_view "0")]
    empty_world.

Definition sample_trace : list (env * request) :=
  [(sample_env, POST_videos_view "v1");
   (sample_env, POST_upload_video (sample_video_body (VStr "Decimals") (VInt 95)));
   (later_env, POST_videos_complete "v1");
   (later_env, POST_videos_view "unknown");
   (later_env, GET_videos);
   (later_env, POST_videos_view "v1")].

Definition sample_video_world : World :=
  {| videos := {[ "v1" := sample_video 7 ]};
     assessments := ∅;
     destroyed := [];
     stderr := [] |}.

(** ** Start-up: [firebaseConfig.js] *)









(** ** Vocabulary for the routes outside the claims *)

(** The check of the required fields of an assessment, as one test. *)
Definition assessment_refused (req_body : object) : bool :=
  negb (truthy (get req_body "title")) || negb (truthy (get req_body "teacherName"))
  || negb (truthy (get req_body "url")) || negb (truthy (get req_body "public_id")).

(** The record written for an assessment, and the one returned. *)
Definition stored_assessment (now : Z) (title teacherName url public_id : value)
    : object :=
  <[ "createdAt" := VTimestamp now ]>
    (newAssessmentData title teacherName url public_id).

Definition returned_assessment (id iso : string)
    (title teacherName url public_id : value) : object :=
  <[ "createdAt" := VStr iso ]>
    (<[ "id" := VStr id ]> (newAssessmentData title teacherName url public_id)).

(** Kinds of request, for counting them in a run. *)
Definition is_accepted_video (req : request) : bool :=
  match req with
  | POST_upload_video req_body => negb (video_refused req_body)
  | _ => false
  end.

Definition is_delete (req : request) : bool :=
  match req with DELETE_assessments _ => true | _ => false end.

Definition deletes (id : string) (req : request) : Prop :=
  req = DELETE_assessments id.

Definition retitles (id : string) (req : request) : Prop :=
  ∃ req_body, req = PUT_assessments id req_body.

(** The request that increments one of the two counters of a video. *)
Definition counter_request (views : bool) (id : string) : request :=
  if views then POST_videos_view id else POST_videos_complete id.

Definition counter_field (views : bool) : string :=
  if views then "views" else "completions".

(** A recorded call to the storage provider, as the delete route makes
    them: a truthy [public_id] and the resource type raw. *)
Definition raw_call (call : value * string) : Prop :=
  truthy call.1 = true ∧ call.2 = "raw".

(** No stored record has a property named [id] of its own. *)
Definition no_own_id (w : World) : Prop :=
  (∀ id doc, videos w !! id = Some doc → doc !! "id" = None) ∧
  (∀ id doc, assessments w !! id = Some doc → doc !! "id" = None).

(** The two messages of a 500 reply. *)
Definition signature_error_text : string := "Could not generate upload signature.".

Definition sample_assessment_body : object :=
  {[ "title" := VStr "Quiz 1";
     "teacherName" := VStr "Ms. Lee";
     "url" := VStr "https://res.cloudinary.com/dszqqhrjv/raw/upload/v1/q1.pdf";
     "public_id" := VStr "joe-learn-assessments/q1";
     "views" := VInt 1000;
     "id" := VStr "chosen-by-client" ]}.

(** * Properties of the handlers *)

(** ** Running a handler *)

Ltac run_handler :=
  unfold app, route, error_handler, get_videos, get_assessments, list_records,
    view_video, complete_video, increment_video, delete_assessment,
    upload_video, upload_assessment, update_assessment, generate_signature,
    health_check, try_catch, bind, ret, throw, lift,
    store_get, store_update, store_delete, store_add, store_list_desc,
    cloudinary_destroy, console_error;
  cbn [fst snd docs].

Lemma get_absent (o : object) k : o !! k = None → get o k = VUndefined.
Proof. unfold get. by intros ->. Qed.

Lemma get_present (o : object) k v : o !! k = Some v → get o k = v.
Proof. unfold get. by intros ->. Qed.

Lemma set_docs_same c w : set_docs c (docs c w) w = w.
Proof. by destruct c, w. Qed.

Lemma docs_set_docs c d w : docs c (set_docs c d w) = d.
Proof. by destruct c. Qed.

(** ** Text occurrences *)

Lemma has_char_app c a b : has_char c (a +:+ b) = has_char c a || has_char c b.
Proof.
  induction a as [|c' a IH]; [done|].
  change (String c' a +:+ b) with (String c' (a +:+ b)).
  cbn. destruct (Ascii.eqb c c'); [done|apply IH].
Qed.

Lemma occurs_in_has_char c needle hay :
  occurs_in needle hay → has_char c needle = true → has_char c hay = true.
Proof.
  intros (before & after & ->) Hc.
  rewrite !has_char_app, Hc. by rewrite orb_true_r.
Qed.

Lemma all_chars_app P a b : all_chars P (a +:+ b) = all_chars P a && all_chars P b.
Proof.
  induction a as [|c a IH]; [done|].
  change (String c a +:+ b) with (String c (a +:+ b)).
  cbn. rewrite IH. by rewrite andb_assoc.
Qed.

Lemma all_chars_has_char P c s :
  all_chars P s = true → has_char c s = true → P c = true.
Proof.
  induction s as [|c' s IH]; [done|].
  cbn. intros [Hc' Hs]%andb_true_iff.
  destruct (Ascii.eqb_spec c c') as [->|_]; [by intros _|]. by apply IH.
Qed.

Lemma message_mentions needle text :
  object_mentions needle (message text) →
  occurs_in needle "message" ∨ occurs_in needle text.
Proof.
  intros (k & v & Hk & Hm). unfold message in Hk.
  apply lookup_singleton_Some in Hk as [<- <-]. exact Hm.
Qed.

(** ** Deleting an assessment *)

(** C5.  A DELETE on an identifier that names no assessment is answered
    with 404 and leaves the world as it was: the same collections, no
    call to the storage provider, nothing written to the error log. *)
Theorem delete_missing_assessment (e : env) (id : string) (w : World) :
  assessments w !! id = None →
  app e (DELETE_assessments id) w =
    (respond 404 (message "Assessment not found."), w).
Proof. intros Hid. run_handler. by rewrite Hid. Qed.

Lemma delete_missing_assessment_witness :
  assessments (sample_world VNull) !! "q2" = None ∧
  app sample_env (DELETE_assessments "q2") (sample_world VNull) =
    (respond 404 (message "Assessment not found."), sample_world VNull).
Proof.
  split; [reflexivity|].
  apply (delete_missing_assessment sample_env "q2" (sample_world VNull)).
  reflexivity.
Defined.

Lemma delete_existing_assessment (e : env) (id : string) (doc : object) (w : World) :
  assessments w !! id = Some doc →
  app e (DELETE_assessments id) w =
    if truthy (get doc "public_id") then
      match uploader_destroy e (get doc "public_id") "raw" with
      | inr _ =>
          (respond 200 (message "Assessment deleted successfully."),
           set_docs Assessments (delete id (assessments w))
             (after_destroy (get doc "public_id") "raw" w))
      | inl err =>
          (respond 500 (message internal_error_text),
           logged [("Error deleting assessment:", err);
                   ("An unhandled error occurred:", err)]
             (after_destroy (get doc "public_id") "raw" w))
      end
    else
      (respond 200 (message "Assessment deleted successfully."),
       set_docs Assessments (delete id (assessments w)) w).
Proof.
  intros Hid. run_handler. rewrite Hid.
  destruct (truthy (get doc "public_id")); cbn; [|by rewrite Hid].
  destruct (uploader_destroy e _ _) as [err|u]; cbn; [|by rewrite Hid].
  unfold logged, after_destroy. cbn. by rewrite <- app_assoc.
Qed.

(** C10.  When the stored record has no [public_id], or a falsy one, the
    DELETE makes no call to the storage provider, removes the record and
    answers 200. *)
Theorem delete_assessment_without_public_id
    (e : env) (id : string) (doc : object) (w : World) :
  assessments w !! id = Some doc →
  (doc !! "public_id" = None ∨
   ∃ v, doc !! "public_id" = Some v ∧ truthy v = false) →
  let (reply, w') := app e (DELETE_assessments id) w in
  reply = respond 200 (message "Assessment deleted successfully.") ∧
  destroyed w' = destroyed w ∧
  assessments w' = delete id (assessments w) ∧
  assessments w' !! id = None ∧
  videos w' = videos w.
Proof.
  intros Hid Hfalsy.
  assert (truthy (get doc "public_id") = false) as Hf.
  { destruct Hfalsy as [Hnone|(v & Hv & Hf)].
    - by rewrite (get_absent _ _ Hnone).
    - by rewrite (get_present _ _ _ Hv). }
  rewrite (delete_existing_assessment e id doc w Hid), Hf.
  cbn. by rewrite lookup_delete_eq.
Qed.

Lemma delete_assessment_without_public_id_witness :
  assessments (sample_world (VStr EmptyString)) !! "q1"
    = Some (sample_assessment (VStr EmptyString)) ∧
  (sample_assessment (VStr EmptyString) !! "public_id" = None ∨
   ∃ v, sample_assessment (VStr EmptyString) !! "public_id" = Some v ∧
        truthy v = false) ∧
  let (reply, w') :=
    app sample_env (DELETE_assessments "q1") (sample_world (VStr EmptyString)) in
  reply = respond 200 (message "Assessment deleted successfully.") ∧
  destroyed w' = destroyed (sample_world (VStr EmptyString)) ∧
  assessments w' = delete "q1" (assessments (sample_world (VStr EmptyString))) ∧
  assessments w' !! "q1" = None ∧
  videos w' = videos (sample_world (VStr EmptyString)).
Proof.
  assert (sample_assessment (VStr EmptyString) !! "public_id" = None ∨
          ∃ v, sample_assessment (VStr EmptyString) !! "public_id" = Some v ∧
               truthy v = false) as Hfalsy.
  { right. exists (VStr EmptyString). split; reflexivity. }
  split; [reflexivity|]. split; [exact Hfalsy|].
  apply (delete_assessment_without_public_id sample_env "q1"
           (sample_assessment (VStr EmptyString)) (sample_world (VStr EmptyString)));
    [reflexivity|exact Hfalsy].
Defined.

(** ** Listing a collection *)

Lemma elem_of_query_desc field (coll : gmap string object) id doc :
  (id, doc) ∈ query_desc field coll ↔ coll !! id = Some doc ∧ is_Some (doc !! field).
Proof.
  unfold query_desc. rewrite merge_sort_Permutation.
  rewrite list_elem_of_filter, elem_of_map_to_list. unfold has_field. cbn. tauto.
Qed.

Lemma list_records_reply (e : env) (c : collection) (w : World) :
  app e (list_request c) w =
    ({| status := 200; body := JArray (with_id <$> query_desc "createdAt" (docs c w)) |},
     w).
Proof. by destruct c. Qed.

Lemma with_id_entry (id : string) (doc : object) : entry_of id doc (with_id (id, doc)).
Proof.
  intros k. unfold with_id, assign. cbn [fst snd]. rewrite lookup_union.
  destruct (doc !! k) as [v|]; [by destruct ({[ "id" := VStr id ]} !! k)|].
  rewrite (left_id None _), lookup_singleton.
  case_decide as Hk; case_decide as Hk'; congruence.
Qed.

Lemma query_desc_NoDup field (coll : gmap string object) :
  NoDup (query_desc field coll).*1.
Proof.
  unfold query_desc. rewrite merge_sort_Permutation.
  eapply sublist_NoDup; [apply (NoDup_fst_map_to_list coll)|].
  apply fmap_sublist, sublist_filter.
Qed.

(** C3, amended.  When the stored record has a truthy [public_id], the
    DELETE makes exactly one call to the storage provider, with that
    [public_id] and resource type raw.  When the provider accepts the
    call, the record is removed and the reply is 200; a list request that
    follows then returns one entry for each of the other assessments that
    has its creation timestamp, with the data of that assessment, and
    none for the deleted one.  When the provider rejects the call, the
    record is kept and the reply is the fixed 500 of the global error
    handler, with the error in the error log.  The videos are not
    touched. *)
Theorem delete_assessment_with_public_id
    (e e' : env) (id : string) (doc : object) (w : World) :
  assessments w !! id = Some doc →
  truthy (get doc "public_id") = true →
  let (reply, w') := app e (DELETE_assessments id) w in
  destroyed w' = (destroyed w ++ [(get doc "public_id", "raw")])%list ∧
  videos w' = videos w ∧
  match uploader_destroy e (get doc "public_id") "raw" with
  | inr _ =>
      reply = respond 200 (message "Assessment deleted successfully.") ∧
      assessments w' = delete id (assessments w) ∧
      stderr w' = stderr w ∧
      ∃ listing,
        (app e' GET_assessments w').1 =
          {| status := 200; body := JArray (with_id <$> listing) |} ∧
        (∀ id' doc', (id', doc') ∈ listing ↔
                     id' ≠ id ∧ assessments w !! id' = Some doc' ∧
                     is_Some (doc' !! "createdAt")) ∧
        NoDup listing.*1 ∧
        Forall (λ entry, entry_of entry.1 entry.2 (with_id entry)) listing
  | inl err =>
      reply = respond 500 (message internal_error_text) ∧
      assessments w' = assessments w ∧
      stderr w' = (stderr w ++ [("Error deleting assessment:", err);
                                ("An unhandled error occurred:", err)])%list
  end.
Proof.
  intros Hid Htruthy.
  rewrite (delete_existing_assessment e id doc w Hid), Htruthy.
  destruct (uploader_destroy e _ _) as [err|u];
    cbn [set_docs after_destroy logged destroyed assessments videos stderr];
    [done|].
  repeat (split; [done|]).
  exists (query_desc "createdAt" (delete id (assessments w))).
  split; [by rewrite (list_records_reply e' Assessments)|].
  split; [|split; [apply query_desc_NoDup|]].
  - intros id' doc'. rewrite elem_of_query_desc, lookup_delete_Some.
    intuition congruence.
  - apply Forall_forall. intros [id' doc'] _. apply with_id_entry.
Qed.

Lemma delete_assessment_with_public_id_witness :
  assessments (sample_world (VStr "joe-learn-assessments/q1")) !! "q1"
    = Some (sample_assessment (VStr "joe-learn-assessments/q1")) ∧
  truthy (get (sample_assessment (VStr "joe-learn-assessments/q1")) "public_id")
    = true ∧
  (let (reply, w') :=
     app sample_env (DELETE_assessments "q1")
       (sample_world (VStr "joe-learn-assessments/q1")) in
   reply = respond 200 (message "Assessment deleted successfully.") ∧
   destroyed w' = [(VStr "joe-learn-assessments/q1", "raw")] ∧
   assessments w' !! "q1" = None) ∧
  (let (reply, w') :=
     app outage_env (DELETE_assessments "q1")
       (sample_world (VStr "joe-learn-assessments/q1")) in
   reply = respond 500 (message internal_error_text) ∧
   destroyed w' = [(VStr "joe-learn-assessments/q1", "raw")] ∧
   assessments w' = assessments (sample_world (VStr "joe-learn-assessments/q1"))).
Proof.
  split; [reflexivity|]. split; [reflexivity|].
  pose proof (delete_assessment_with_public_id sample_env sample_env "q1"
                (sample_assessment (VStr "joe-learn-assessments/q1"))
                (sample_world (VStr "joe-learn-assessments/q1")) eq_refl eq_refl)
    as Haccepted.
  pose proof (delete_assessment_with_public_id outage_env sample_env "q1"
                (sample_assessment (VStr "joe-learn-assessments/q1"))
                (sample_world (VStr "joe-learn-assessments/q1")) eq_refl eq_refl)
    as Hrejected.
  split.
  - destruct (app sample_env (DELETE_assessments "q1")
                (sample_world (VStr "joe-learn-assessments/q1"))) as [reply w'].
    destruct Haccepted as (Hcalls & _ & Hreply & Hgone & _).
    split; [exact Hreply|]. split; [exact Hcalls|].
    rewrite Hgone. apply lookup_delete_eq.
  - destruct (app outage_env (DELETE_assessments "q1")
                (sample_world (VStr "joe-learn-assessments/q1"))) as [reply w'].
    destruct Hrejected as (Hcalls & _ & Hreply & Hkept & _).
    split; [exact Hreply|]. split; [exact Hcalls|exact Hkept].
Defined.

(** C3 as stated fails, in two ways.  The record [q1] exists with an empty
    [public_id]: its DELETE answers 200 and removes it, yet the list of
    calls to the storage provider is still empty afterwards.  The record
    [q1] exists with a [public_id], and the storage provider rejects the
    call: the DELETE answers 500, the record is kept, and the list request
    that follows still returns it. *)
Lemma delete_assessment_no_destroy_or_no_removal :
  (assessments (sample_world (VStr EmptyString)) !! "q1"
     = Some (sample_assessment (VStr EmptyString)) ∧
   status (app sample_env (DELETE_assessments "q1")
             (sample_world (VStr EmptyString))).1 = 200%Z ∧
   assessments (app sample_env (DELETE_assessments "q1")
                  (sample_world (VStr EmptyString))).2 !! "q1" = None ∧
   destroyed (app sample_env (DELETE_assessments "q1")
                (sample_world (VStr EmptyString))).2 = []) ∧
  (assessments (sample_world (VStr "joe-learn-assessments/q1")) !! "q1"
     = Some (sample_assessment (VStr "joe-learn-assessments/q1")) ∧
   status (app outage_env (DELETE_assessments "q1")
             (sample_world (VStr "joe-learn-assessments/q1"))).1 = 500%Z ∧
   assessments (app outage_env (DELETE_assessments "q1")
                  (sample_world (VStr "joe-learn-assessments/q1"))).2 !! "q1"
     = Some (sample_assessment (VStr "joe-learn-assessments/q1")) ∧
   body (app sample_env GET_assessments
           (app outage_env (DELETE_assessments "q1")
              (sample_world (VStr "joe-learn-assessments/q1"))).2).1 =
     JArray [<[ "id" := VStr "q1" ]>
               (sample_assessment (VStr "joe-learn-assessments/q1"))]).
Proof.
  split; [repeat split; reflexivity|].
  split; [reflexivity|]. split; [reflexivity|]. split; [reflexivity|].
  vm_compute. reflexivity.
Qed.

(** ** Incrementing a counter of a missing video *)

Lemma increment_missing (e : env) (id field ack label : string) (w : World) :
  videos w !! id = None →
  increment_video e id field ack label w =
    (Thrown (NotFound (document_path Videos id)),
     logged [(label, NotFound (document_path Videos id))] w).
Proof. intros Hid. unfold increment_video. run_handler. by rewrite Hid. Qed.

Lemma internal_error_text_silent (path : string) :
  ¬ payload_mentions (detail_of (NotFound path))
      (JObject (message internal_error_text)).
Proof.
  intros [Hk|Hv]%message_mentions.
  - apply (occurs_in_has_char "5"%char) in Hk; [discriminate Hk|reflexivity].
  - apply (occurs_in_has_char "5"%char) in Hv; [discriminate Hv|reflexivity].
Qed.

(** C7.  A view or complete request on an identifier that names no video
    makes the store fail with NotFound; the handler passes that error to
    [next], and the global error handler answers with the fixed 500 reply,
    the same for every error, which is not a 404 and in which the text of
    the error does not occur.  The error itself goes to the error log,
    and the collections are left as they were. *)
Theorem increment_missing_video_is_500 (e : env) (id : string) (w : World) :
  videos w !! id = None →
  let err := NotFound (document_path Videos id) in
  let generic := respond 500 (message internal_error_text) in
  view_video e id w = (Thrown err, logged [("Error updating view count:", err)] w) ∧
  complete_video e id w =
    (Thrown err, logged [("Error updating completion count:", err)] w) ∧
  app e (POST_videos_view id) w =
    (generic, logged [("Error updating view count:", err);
                      ("An unhandled error occurred:", err)] w) ∧
  app e (POST_videos_complete id) w =
    (generic, logged [("Error updating completion count:", err);
                      ("An unhandled error occurred:", err)] w) ∧
  (∀ err' w', error_handler err' w' =
              (generic, logged [("An unhandled error occurred:", err')] w')) ∧
  status generic ≠ 404%Z ∧
  ¬ payload_mentions (detail_of err) (body generic).
Proof.
  intros Hid err generic.
  repeat split.
  - by apply increment_missing.
  - by apply increment_missing.
  - unfold app, route, view_video. rewrite increment_missing by done.
    unfold error_handler, console_error, logged. cbn. by rewrite <- app_assoc.
  - unfold app, route, complete_video. rewrite increment_missing by done.
    unfold error_handler, console_error, logged. cbn. by rewrite <- app_assoc.
  - discriminate.
  - apply internal_error_text_silent.
Qed.

Lemma increment_missing_video_is_500_witness :
  videos sample_video_world !! "unknown" = None ∧
  app sample_env (POST_videos_view "unknown") sample_video_world =
    (respond 500 (message internal_error_text),
     logged [("Error updating view count:", NotFound "videos/unknown");
             ("An unhandled error occurred:", NotFound "videos/unknown")]
       sample_video_world) ∧
  app sample_env (POST_videos_complete "unknown") sample_video_world =
    (respond 500 (message internal_error_text),
     logged [("Error updating completion count:", NotFound "videos/unknown");
             ("An unhandled error occurred:", NotFound "videos/unknown")]
       sample_video_world) ∧
  ¬ payload_mentions (detail_of (NotFound "videos/unknown"))
      (body (respond 500 (message internal_error_text))).
Proof.
  assert (videos sample_video_world !! "unknown" = None) as Hid by reflexivity.
  destruct (increment_missing_video_is_500 sample_env "unknown" sample_video_world Hid)
    as (_ & _ & Hview & Hcomplete & _ & _ & Hsilent).
  split; [exact Hid|]. split; [exact Hview|]. split; [exact Hcomplete|exact Hsilent].
Defined.

(** ** Creating a video *)

Lemma resolve_plain now old v : is_field_value v = false → resolve now old v = v.
Proof. by destruct v. Qed.

Lemma parsed_get (o : object) k : parsed o → is_field_value (get o k) = false.
Proof.
  intros Hp. unfold get. destruct (o !! k) as [v|] eqn:Hk; [|done].
  by apply (Hp k).
Qed.

Lemma stored_video_resolve now title subject teacherName url public_id duration :
  is_field_value title = false → is_field_value subject = false →
  is_field_value teacherName = false → is_field_value url = false →
  is_field_value public_id = false → is_field_value duration = false →
  resolve now None <$> newVideoData title subject teacherName url public_id duration
  = stored_video now title subject teacherName url public_id duration.
Proof.
  intros. unfold stored_video, newVideoData.
  rewrite !fmap_insert, map_fmap_singleton.
  rewrite !resolve_plain by done. cbn [resolve].
  rewrite !(insert_insert_ne _ "createdAt") by done.
  by rewrite insert_singleton_eq.
Qed.

Lemma upload_video_rejected (e : env) (req_body : object) (w : World) :
  negb (truthy (get req_body "title")) || negb (truthy (get req_body "teacherName"))
  || negb (truthy (get req_body "subject")) || negb (truthy (get req_body "url"))
  || negb (truthy (get req_body "public_id"))
  || is_undefined (get req_body "duration") = true →
  app e (POST_upload_video req_body) w =
    (respond 400 (message "Missing required video data."), w).
Proof. intros Hbad. run_handler. by rewrite Hbad. Qed.

Lemma upload_video_accepted (e : env) (req_body : object) (w : World) :
  truthy (get req_body "title") = true →
  truthy (get req_body "teacherName") = true →
  truthy (get req_body "subject") = true →
  truthy (get req_body "url") = true →
  truthy (get req_body "public_id") = true →
  is_undefined (get req_body "duration") = false →
  parsed req_body →
  app e (POST_upload_video req_body) w =
    (respond 201
       (returned_video (fresh (dom (videos w))) (toISOString e (js_now e))
          (get req_body "title") (get req_body "subject")
          (get req_body "teacherName") (get req_body "url")
          (get req_body "public_id") (get req_body "duration")),
     set_docs Videos
       (<[ fresh (dom (videos w)) :=
             stored_video (store_now e)
               (get req_body "title") (get req_body "subject")
               (get req_body "teacherName") (get req_body "url")
               (get req_body "public_id") (get req_body "duration") ]> (videos w))
       w).
Proof.
  intros Ht Hn Hs Hu Hp Hd Hparsed. run_handler.
  rewrite Ht, Hn, Hs, Hu, Hp, Hd. cbn [negb orb].
  rewrite stored_video_resolve by (by apply parsed_get).
  unfold returned_video, assign.
  by rewrite <- insert_union_singleton_r.
Qed.

Lemma lookup_returned_video id iso title subject teacherName url public_id duration :
  let r := returned_video id iso title subject teacherName url public_id duration in
  r !! "id" = Some (VStr id) ∧ r !! "title" = Some title ∧
  r !! "subject" = Some subject ∧ r !! "teacher" = Some teacherName ∧
  r !! "url" = Some url ∧ r !! "public_id" = Some public_id ∧
  r !! "duration" = Some duration ∧ r !! "views" = Some (VInt 0) ∧
  r !! "completions" = Some (VInt 0) ∧ r !! "createdAt" = Some (VStr iso).
Proof. repeat split; vm_compute; reflexivity. Qed.

Lemma lookup_stored_video now title subject teacherName url public_id duration :
  let d := stored_video now title subject teacherName url public_id duration in
  d !! "title" = Some title ∧ d !! "subject" = Some subject ∧
  d !! "teacher" = Some teacherName ∧ d !! "url" = Some url ∧
  d !! "public_id" = Some public_id ∧ d !! "duration" = Some duration ∧
  d !! "views" = Some (VInt 0) ∧ d !! "completions" = Some (VInt 0) ∧
  d !! "createdAt" = Some (VTimestamp now).
Proof. repeat split; vm_compute; reflexivity. Qed.

Lemma fresh_video_id (w : World) : videos w !! fresh (dom (videos w)) = None.
Proof. apply not_elem_of_dom, is_fresh. Qed.

(** C2, amended.  A body in which one of [title], [teacherName], [subject],
    [url], [public_id] is absent, or whose [duration] is undefined, is
    answered with 400 and the world is left as it was.  A body in which
    these five are truthy and [duration] is 0 is answered with 201 and the
    created record (its new identifier, the fields, both counters at 0 and
    the time of the reply as text), and that record is written under an
    identifier that was unused. *)
Theorem upload_video_required_fields (e : env) (req_body : object) (w : World) :
  (req_body !! "title" = None ∨ req_body !! "teacherName" = None ∨
   req_body !! "subject" = None ∨ req_body !! "url" = None ∨
   req_body !! "public_id" = None ∨ get req_body "duration" = VUndefined →
   app e (POST_upload_video req_body) w =
     (respond 400 (message "Missing required video data."), w)) ∧
  (parsed req_body →
   truthy (get req_body "title") = true →
   truthy (get req_body "teacherName") = true →
   truthy (get req_body "subject") = true →
   truthy (get req_body "url") = true →
   truthy (get req_body "public_id") = true →
   get req_body "duration" = VInt 0 →
   let id := fresh (dom (videos w)) in
   let (reply, w') := app e (POST_upload_video req_body) w in
   reply =
     respond 201
       (returned_video id (toISOString e (js_now e))
          (get req_body "title") (get req_body "subject")
          (get req_body "teacherName") (get req_body "url")
          (get req_body "public_id") (VInt 0)) ∧
   videos w !! id = None ∧
   videos w' =
     <[ id := stored_video (store_now e)
                (get req_body "title") (get req_body "subject")
                (get req_body "teacherName") (get req_body "url")
                (get req_body "public_id") (VInt 0) ]> (videos w) ∧
   assessments w' = assessments w ∧ destroyed w' = destroyed w).
Proof.
  split.
  - intros Hmissing. apply upload_video_rejected.
    destruct Hmissing as [H|[H|[H|[H|[H|H]]]]];
      try rewrite (get_absent _ _ H); try rewrite H; cbn;
      by rewrite ?orb_true_r.
  - intros Hparsed Ht Hn Hs Hu Hp Hd id.
    rewrite (upload_video_accepted e req_body w) by (done || by rewrite Hd).
    rewrite Hd. cbn [set_docs videos assessments destroyed].
    repeat split. apply fresh_video_id.
Qed.

Lemma parsed_sample_video_body title duration :
  is_field_value title = false → is_field_value duration = false →
  parsed (sample_video_body title duration).
Proof.
  intros Ht Hd. unfold parsed, sample_video_body.
  repeat (apply map_Forall_insert_2; [done|]).
  apply map_Forall_empty.
Qed.

Lemma upload_video_required_fields_witness :
  (get (delete "duration" (sample_video_body (VStr "Fractions") (VInt 0))) "duration"
     = VUndefined ∧
   app sample_env
     (POST_upload_video (delete "duration" (sample_video_body (VStr "Fractions") (VInt 0))))
     empty_world =
     (respond 400 (message "Missing required video data."), empty_world)) ∧
  (parsed (sample_video_body (VStr "Fractions") (VInt 0)) ∧
   truthy (get (sample_video_body (VStr "Fractions") (VInt 0)) "title") = true ∧
   truthy (get (sample_video_body (VStr "Fractions") (VInt 0)) "teacherName") = true ∧
   truthy (get (sample_video_body (VStr "Fractions") (VInt 0)) "subject") = true ∧
   truthy (get (sample_video_body (VStr "Fractions") (VInt 0)) "url") = true ∧
   truthy (get (sample_video_body (VStr "Fractions") (VInt 0)) "public_id") = true ∧
   get (sample_video_body (VStr "Fractions") (VInt 0)) "duration" = VInt 0 ∧
   status (app sample_env
             (POST_upload_video (sample_video_body (VStr "Fractions") (VInt 0)))
             empty_world).1 = 201%Z ∧
   videos (app sample_env
             (POST_upload_video (sample_video_body (VStr "Fractions") (VInt 0)))
             empty_world).2 !! "0" =
     Some (stored_video 1700000000000000 (VStr "Fractions") (VStr "Algebra")
             (VStr "Ms. Lee")
             (VStr "https://res.cloudinary.com/dszqqhrjv/video/upload/v1/a.mp4")
             (VStr "joe-learn-videos/a") (VInt 0))).
Proof.
  pose proof (parsed_sample_video_body (VStr "Fractions") (VInt 0) eq_refl eq_refl)
    as Hparsed.
  pose proof (upload_video_required_fields sample_env
                (delete "duration" (sample_video_body (VStr "Fractions") (VInt 0)))
                empty_world) as [Hreject _].
  pose proof (upload_video_required_fields sample_env
                (sample_video_body (VStr "Fractions") (VInt 0))
                empty_world) as [_ Haccept].
  split.
  - split; [reflexivity|]. apply Hreject. repeat right. reflexivity.
  - specialize (Haccept Hparsed eq_refl eq_refl eq_refl eq_refl eq_refl eq_refl).
    cbv zeta in Haccept.
    destruct (app sample_env
                (POST_upload_video (sample_video_body (VStr "Fractions") (VInt 0)))
                empty_world) as [reply w'].
    destruct Haccept as (-> & _ & Hvideos & _).
    repeat (split; [first [exact Hparsed|reflexivity]|]).
    cbn [snd]. rewrite Hvideos. reflexivity.
Defined.

(** C2 as stated fails: each of these two bodies holds all six fields and
    a [duration] of 0, the first with the empty string as its [title], the
    second with the number 0; both are answered with 400 and nothing is
    written. *)
Lemma upload_video_empty_title_rejected :
  (sample_video_body (VStr EmptyString) (VInt 0) !! "title" = Some (VStr EmptyString) ∧
   is_Some (sample_video_body (VStr EmptyString) (VInt 0) !! "teacherName") ∧
   is_Some (sample_video_body (VStr EmptyString) (VInt 0) !! "subject") ∧
   is_Some (sample_video_body (VStr EmptyString) (VInt 0) !! "url") ∧
   is_Some (sample_video_body (VStr EmptyString) (VInt 0) !! "public_id") ∧
   sample_video_body (VStr EmptyString) (VInt 0) !! "duration" = Some (VInt 0) ∧
   app sample_env (POST_upload_video (sample_video_body (VStr EmptyString) (VInt 0)))
     empty_world =
     (respond 400 (message "Missing required video data."), empty_world)) ∧
  (sample_video_body (VInt 0) (VInt 0) !! "title" = Some (VInt 0) ∧
   is_Some (sample_video_body (VInt 0) (VInt 0) !! "teacherName") ∧
   is_Some (sample_video_body (VInt 0) (VInt 0) !! "subject") ∧
   is_Some (sample_video_body (VInt 0) (VInt 0) !! "url") ∧
   is_Some (sample_video_body (VInt 0) (VInt 0) !! "public_id") ∧
   sample_video_body (VInt 0) (VInt 0) !! "duration" = Some (VInt 0) ∧
   app sample_env (POST_upload_video (sample_video_body (VInt 0) (VInt 0)))
     empty_world =
     (respond 400 (message "Missing required video data."), empty_world)).
Proof. repeat split; by eexists. Qed.

(** C9, amended.  With [title], [teacherName], [subject], [url] and
    [public_id] truthy, the only [duration] that is refused is undefined:
    every other value (null, NaN, a text, ...) passes the check, is
    written to the new record as it is, and comes back in the reply. *)
Theorem upload_video_duration_check (e : env) (req_body : object) (w : World) :
  parsed req_body →
  truthy (get req_body "title") = true →
  truthy (get req_body "teacherName") = true →
  truthy (get req_body "subject") = true →
  truthy (get req_body "url") = true →
  truthy (get req_body "public_id") = true →
  (get req_body "duration" = VUndefined →
   app e (POST_upload_video req_body) w =
     (respond 400 (message "Missing required video data."), w)) ∧
  (get req_body "duration" ≠ VUndefined →
   let id := fresh (dom (videos w)) in
   let (reply, w') := app e (POST_upload_video req_body) w in
   videos w !! id = None ∧
   status reply = 201%Z ∧
   (∃ record, body reply = JObject record ∧
              record !! "id" = Some (VStr id) ∧
              record !! "duration" = Some (get req_body "duration")) ∧
   (∃ doc, videos w' = <[ id := doc ]> (videos w) ∧
           doc !! "duration" = Some (get req_body "duration"))).
Proof.
  intros Hparsed Ht Hn Hs Hu Hp. split.
  - intros Hd. apply upload_video_rejected. rewrite Hd. cbn.
    by rewrite ?orb_true_r.
  - intros Hd id.
    rewrite (upload_video_accepted e req_body w)
      by (done || by destruct (get req_body "duration")).
    cbn [set_docs videos status body respond]. fold id.
    split; [apply fresh_video_id|]. split; [done|]. split.
    + eexists. split; [reflexivity|].
      split; apply lookup_returned_video.
    + eexists. split; [reflexivity|]. apply lookup_stored_video.
Qed.

Lemma upload_video_duration_check_witness :
  parsed (sample_video_body (VStr "Fractions") (VNum NNaN)) ∧
  truthy (get (sample_video_body (VStr "Fractions") (VNum NNaN)) "title") = true ∧
  truthy (get (sample_video_body (VStr "Fractions") (VNum NNaN)) "teacherName") = true ∧
  truthy (get (sample_video_body (VStr "Fractions") (VNum NNaN)) "subject") = true ∧
  truthy (get (sample_video_body (VStr "Fractions") (VNum NNaN)) "url") = true ∧
  truthy (get (sample_video_body (VStr "Fractions") (VNum NNaN)) "public_id") = true ∧
  get (sample_video_body (VStr "Fractions") (VNum NNaN)) "duration" ≠ VUndefined ∧
  status (app sample_env
            (POST_upload_video (sample_video_body (VStr "Fractions") (VNum NNaN)))
            empty_world).1 = 201%Z ∧
  ∃ doc,
    videos (app sample_env
              (POST_upload_video (sample_video_body (VStr "Fractions") (VNum NNaN)))
              empty_world).2 = <[ "0" := doc ]> ∅ ∧
    doc !! "duration" = Some (VNum NNaN).
Proof.
  pose proof (parsed_sample_video_body (VStr "Fractions") (VNum NNaN) eq_refl eq_refl)
    as Hparsed.
  assert (get (sample_video_body (VStr "Fractions") (VNum NNaN)) "duration"
          ≠ VUndefined) as Hduration by discriminate.
  pose proof (upload_video_duration_check sample_env
                (sample_video_body (VStr "Fractions") (VNum NNaN)) empty_world
                Hparsed eq_refl eq_refl eq_refl eq_refl eq_refl) as [_ Haccept].
  specialize (Haccept Hduration). cbv zeta in Haccept.
  destruct (app sample_env
              (POST_upload_video (sample_video_body (VStr "Fractions") (VNum NNaN)))
              empty_world) as [reply w'].
  destruct Haccept as (_ & Hstatus & _ & doc & Hvideos & Hdoc).
  repeat (split; [first [exact Hparsed|exact Hduration|reflexivity|exact Hstatus]|]).
  exists doc. split; [exact Hvideos|exact Hdoc].
Defined.

(** C9 as stated fails: each of these two bodies holds the five other
    fields and a [duration] that is null, not undefined, the first with
    the empty string as its [title], the second with the number 0; both
    are answered with 400 and nothing is written. *)
Lemma upload_video_null_duration_empty_title :
  (sample_video_body (VStr EmptyString) VNull !! "title" = Some (VStr EmptyString) ∧
   is_Some (sample_video_body (VStr EmptyString) VNull !! "teacherName") ∧
   is_Some (sample_video_body (VStr EmptyString) VNull !! "subject") ∧
   is_Some (sample_video_body (VStr EmptyString) VNull !! "url") ∧
   is_Some (sample_video_body (VStr EmptyString) VNull !! "public_id") ∧
   get (sample_video_body (VStr EmptyString) VNull) "duration" = VNull ∧
   app sample_env (POST_upload_video (sample_video_body (VStr EmptyString) VNull))
     empty_world =
     (respond 400 (message "Missing required video data."), empty_world)) ∧
  (sample_video_body (VInt 0) VNull !! "title" = Some (VInt 0) ∧
   is_Some (sample_video_body (VInt 0) VNull !! "teacherName") ∧
   is_Some (sample_video_body (VInt 0) VNull !! "subject") ∧
   is_Some (sample_video_body (VInt 0) VNull !! "url") ∧
   is_Some (sample_video_body (VInt 0) VNull !! "public_id") ∧
   get (sample_video_body (VInt 0) VNull) "duration" = VNull ∧
   app sample_env (POST_upload_video (sample_video_body (VInt 0) VNull))
     empty_world =
     (respond 400 (message "Missing required video data."), empty_world)).
Proof. repeat split; by eexists. Qed.

(** ** Signing an upload *)

Lemma params_to_sign_timestamp_default timestamp (req_body : object) :
  req_body !! "timestamp" = None →
  params_to_sign timestamp req_body !! "timestamp" = Some (VInt timestamp).
Proof.
  intros Hnone. unfold params_to_sign, assign.
  rewrite lookup_union_r by done. apply lookup_singleton_eq.
Qed.

Lemma params_to_sign_timestamp_body timestamp (req_body : object) v :
  req_body !! "timestamp" = Some v →
  params_to_sign timestamp req_body !! "timestamp" = Some v.
Proof.
  intros Hsome. unfold params_to_sign, assign.
  by apply lookup_union_Some_l.
Qed.

Lemma generate_signature_reply (e : env) (req_body : object) (w : World) :
  app e (POST_generate_signature req_body) w =
    match api_sign_request e
            (params_to_sign (round_seconds (js_now e)) req_body)
            (api_secret cloudinary_config) with
    | inr signature =>
        (respond 200
           {[ "signature" := VStr signature;
              "timestamp" := VInt (round_seconds (js_now e));
              "api_key" := VStr (api_key cloudinary_config);
              "cloud_name" := VStr (cloud_name cloudinary_config) ]}, w)
    | inl err =>
        (respond 500 (message "Could not generate upload signature."),
         logged [("Error generating Cloudinary signature:", err)] w)
    end.
Proof. run_handler. by destruct (api_sign_request e _ _). Qed.

(** When the body has no [timestamp] of its own, the timestamp that is
    signed is the one the reply reports. *)
Lemma generate_signature_timestamp_agrees
    (e : env) (req_body : object) (w : World) (signature : string) :
  req_body !! "timestamp" = None →
  api_sign_request e (params_to_sign (round_seconds (js_now e)) req_body)
    (api_secret cloudinary_config) = inr signature →
  ∃ o, (app e (POST_generate_signature req_body) w).1 = respond 200 o ∧
       o !! "timestamp" =
         params_to_sign (round_seconds (js_now e)) req_body !! "timestamp".
Proof.
  intros Hnone Hsign. rewrite generate_signature_reply, Hsign.
  eexists. split; [reflexivity|].
  rewrite (params_to_sign_timestamp_default _ _ Hnone).
  rewrite lookup_insert_ne by done. apply lookup_insert_eq.
Qed.

(** C1 at a body that brings its own [timestamp].  The request is made at
    1700000000499 ms with the body [{ timestamp: 5 }].  Whatever the
    signing function does, it is called on the parameters
    [{ timestamp: 5 }], the timestamp of the body, while the 200 reply
    reports 1700000000, the timestamp of the server. *)
Theorem generate_signature_reports_unsigned_timestamp
    (sign : object → string → error + string) (iso : Z → string)
    (destroy : value → string → error + unit) (w : World) :
  app {| js_now := 1700000000499; store_now := 1700000000000000;
         api_sign_request := sign; toISOString := iso;
         uploader_destroy := destroy |}
      (POST_generate_signature {[ "timestamp" := VInt 5 ]}) w =
    match sign {[ "timestamp" := VInt 5 ]} "4SN0tLHVVGP3b3C_KbUhM1sBOf4" with
    | inr signature =>
        (respond 200
           {[ "signature" := VStr signature;
              "timestamp" := VInt 1700000000;
              "api_key" := VStr "593179499237439";
              "cloud_name" := VStr "dszqqhrjv" ]}, w)
    | inl err =>
        (respond 500 (message "Could not generate upload signature."),
         logged [("Error generating Cloudinary signature:", err)] w)
    end.
Proof. by rewrite generate_signature_reply. Qed.

Lemma secret_has_V : has_char "V" (api_secret cloudinary_config) = true.
Proof. reflexivity. Qed.

Lemma no_secret_without_V (s : string) :
  has_char "V" s = false → ¬ occurs_in (api_secret cloudinary_config) s.
Proof.
  intros Hs Hocc. apply (occurs_in_has_char "V") in Hocc; [|apply secret_has_V].
  congruence.
Qed.

Lemma no_secret_in_digest (s : string) :
  hex_digest s = true → ¬ occurs_in (api_secret cloudinary_config) s.
Proof.
  intros Hhex. apply no_secret_without_V.
  destruct (has_char "V" s) eqn:HV; [|done].
  by apply (all_chars_has_char _ _ _ Hhex) in HV.
Qed.

(** C8.  Given that the signing function returns hexadecimal digests, the
    text of the secret key occurs nowhere in the reply to a signature
    request, neither in a property name nor in a value.  The reply is
    either the 200 reply with exactly the four properties [signature],
    [timestamp], [api_key], [cloud_name], or the fixed 500 reply, which
    holds a message and no signature. *)
Theorem generate_signature_hides_secret (e : env) (req_body : object) (w : World) :
  (∀ params secret signature,
     api_sign_request e params secret = inr signature → hex_digest signature = true) →
  let reply := (app e (POST_generate_signature req_body) w).1 in
  ¬ payload_mentions (api_secret cloudinary_config) (body reply) ∧
  ((status reply = 200%Z ∧
    ∃ o, body reply = JObject o ∧
         dom o = {[ "signature"; "timestamp"; "api_key"; "cloud_name" ]}) ∨
   (status reply = 500%Z ∧
    body reply = JObject (message "Could not generate upload signature."))).
Proof.
  intros Hhex reply. subst reply. rewrite generate_signature_reply.
  destruct (api_sign_request e _ _) as [err|signature] eqn:Hsign; cbn.
  - split; [|by right].
    intros [Hk|Hv]%message_mentions.
    + by apply no_secret_without_V in Hk.
    + by apply no_secret_without_V in Hv.
  - apply Hhex in Hsign. split.
    + intros (k & v & Hk & Hm).
      repeat (apply lookup_insert_Some in Hk as [[<- <-]|[_ Hk]];
              [destruct Hm as [Hm|Hm]; cbn in Hm;
               first [done | by apply no_secret_without_V in Hm
                     | by apply no_secret_in_digest in Hm]|]).
      apply lookup_singleton_Some in Hk as [<- <-].
      destruct Hm as [Hm|Hm]; by apply no_secret_without_V in Hm.
    + left. split; [done|]. eexists. split; [done|].
      rewrite !dom_insert_L, dom_singleton_L. set_solver.
Qed.

Lemma generate_signature_hides_secret_witness :
  (∀ params secret signature,
     api_sign_request sample_env params secret = inr signature →
     hex_digest signature = true) ∧
  ¬ payload_mentions (api_secret cloudinary_config)
      (body (app sample_env
               (POST_generate_signature {[ "folder" := VStr "joe-learn-videos" ]})
               empty_world).1) ∧
  status (app sample_env
            (POST_generate_signature {[ "folder" := VStr "joe-learn-videos" ]})
            empty_world).1 = 200%Z.
Proof.
  assert (∀ params secret signature,
            api_sign_request sample_env params secret = inr signature →
            hex_digest signature = true) as Hhex.
  { intros params secret signature Hsign. injection Hsign as <-. reflexivity. }
  split; [exact Hhex|]. split; [|reflexivity].
  apply (generate_signature_hides_secret sample_env
           {[ "folder" := VStr "joe-learn-videos" ]} empty_world Hhex).
Defined.

(** ** Newest first *)

#[global] Instance key_le_total : Total key_le.
Proof. intros [a1 a2] [b1 b2]. unfold key_le. cbn. lia. Qed.

#[global] Instance key_le_trans : Transitive key_le.
Proof. intros [a1 a2] [b1 b2] [c1 c2]. unfold key_le. cbn. lia. Qed.

#[global] Instance descending_total field : Total (descending field).
Proof. intros x y. unfold descending. apply key_le_total. Qed.

#[global] Instance descending_trans field : Transitive (descending field).
Proof.
  intros x y z Hxy Hyz. unfold descending in *.
  by eapply key_le_trans.
Qed.

Lemma descending_timestamps field (x y : string * object) t1 t2 :
  x.2 !! field = Some (VTimestamp t1) → y.2 !! field = Some (VTimestamp t2) →
  descending field x y → (t2 ≤ t1)%Z.
Proof.
  intros Hx Hy. unfold descending.
  rewrite (get_present _ _ _ Hx), (get_present _ _ _ Hy). unfold key_le. cbn. lia.
Qed.

Lemma StronglySorted_lookup {A} (R : relation A) (l : list A) i j x y :
  StronglySorted R l → i < j → l !! i = Some x → l !! j = Some y → R x y.
Proof.
  intros Hsorted. revert i j.
  induction Hsorted as [|a l Hsorted IH Hall]; intros i j Hij Hi Hj; [done|].
  destruct j as [|j]; [lia|]. cbn in Hj.
  destruct i as [|i]; cbn in Hi.
  - injection Hi as ->. rewrite Forall_forall in Hall.
    apply Hall. by eapply list_elem_of_lookup_2.
  - apply (IH i j); [lia|done..].
Qed.

Lemma filter_all {A} (P : A → Prop) `{∀ x, Decision (P x)} (l : list A) :
  Forall P l → filter P l = l.
Proof.
  induction 1 as [|x l Hx _ IH]; [done|].
  by rewrite filter_cons_True, IH.
Qed.

Lemma query_desc_sorted field (coll : gmap string object) :
  StronglySorted (descending field) (query_desc field coll).
Proof. apply StronglySorted_merge_sort; apply _. Qed.

Lemma query_desc_all field (coll : gmap string object) :
  (∀ id doc, coll !! id = Some doc → is_Some (doc !! field)) →
  query_desc field coll ≡ₚ map_to_list coll.
Proof.
  intros Hall. unfold query_desc. rewrite merge_sort_Permutation.
  rewrite filter_all; [done|].
  apply Forall_forall. intros [id doc] Hin%elem_of_map_to_list.
  by apply (Hall id).
Qed.

(** C6.  In a collection whose records all have their creation timestamp,
    which is how this application writes them, the list request returns
    200 with one entry per record of the collection, whatever their
    number; each entry holds the data of its record, property by
    property, and the identifier of the record as [id] (unless the data
    has an [id] of its own); and an entry that comes earlier in the reply
    never has an older creation timestamp than one that comes later.  The
    world is left as it was. *)
Theorem list_returns_all_newest_first (e : env) (c : collection) (w : World) :
  (∀ id doc, docs c w !! id = Some doc → is_created doc) →
  ∃ listing : list (string * object),
    app e (list_request c) w =
      ({| status := 200; body := JArray (with_id <$> listing) |}, w) ∧
    listing ≡ₚ map_to_list (docs c w) ∧
    length listing = size (docs c w) ∧
    Forall (λ entry, entry_of entry.1 entry.2 (with_id entry)) listing ∧
    ∀ i j id1 doc1 id2 doc2 t1 t2,
      i < j →
      listing !! i = Some (id1, doc1) → listing !! j = Some (id2, doc2) →
      doc1 !! "createdAt" = Some (VTimestamp t1) →
      doc2 !! "createdAt" = Some (VTimestamp t2) →
      (t2 ≤ t1)%Z.
Proof.
  intros Hcreated.
  assert (query_desc "createdAt" (docs c w) ≡ₚ map_to_list (docs c w)) as Hperm.
  { apply query_desc_all. intros id doc Hdoc.
    destruct (Hcreated id doc Hdoc) as [t Ht]. by rewrite Ht. }
  exists (query_desc "createdAt" (docs c w)). split; [apply list_records_reply|].
  split; [exact Hperm|]. split.
  { rewrite Hperm. apply length_map_to_list. }
  split.
  { apply Forall_forall. intros [id doc] _. apply with_id_entry. }
  intros i j id1 doc1 id2 doc2 t1 t2 Hij Hi Hj Ht1 Ht2.
  eapply (descending_timestamps "createdAt" (id1, doc1) (id2, doc2)); [done..|].
  eapply StronglySorted_lookup; [apply query_desc_sorted|done..].
Qed.

(** ** What a request does to the collections *)

Lemma apply_update_singleton now field v (doc : object) :
  apply_update now {[ field := v ]} doc =
    <[ field := resolve now (doc !! field) v ]> doc.
Proof.
  unfold apply_update.
  rewrite <- insert_empty, map_imap_insert, map_imap_empty, insert_empty.
  by rewrite <- insert_union_singleton_l.
Qed.

Lemma videos_after (e : env) (req : request) (w : World) :
  videos (app e req w).2 =
    match req with
    | POST_upload_video req_body =>
        if video_refused req_body then videos w
        else <[ fresh (dom (videos w)) :=
                  resolve (store_now e) None <$>
                    newVideoData (get req_body "title") (get req_body "subject")
                      (get req_body "teacherName") (get req_body "url")
                      (get req_body "public_id") (get req_body "duration") ]>
               (videos w)
    | POST_videos_view id =>
        match videos w !! id with
        | Some doc =>
            <[ id := <[ "views" := resolve (store_now e) (doc !! "views") (VIncrement 1) ]>
                       doc ]> (videos w)
        | None => videos w
        end
    | POST_videos_complete id =>
        match videos w !! id with
        | Some doc =>
            <[ id := <[ "completions" :=
                          resolve (store_now e) (doc !! "completions") (VIncrement 1) ]>
                       doc ]> (videos w)
        | None => videos w
        end
    | _ => videos w
    end.
Proof.
  destruct req as [|req_body| |req_body|id|id| |req_body|id req_body|id];
    run_handler; try done.
  - by destruct (api_sign_request e _ _).
  - fold (video_refused req_body). by destruct (video_refused req_body).
  - destruct (videos w !! id) as [doc|]; [|done].
    cbn. by rewrite apply_update_singleton.
  - destruct (videos w !! id) as [doc|]; [|done].
    cbn. by rewrite apply_update_singleton.
  - by destruct (_ || _).
  - destruct (negb _); [done|]. by destruct (assessments w !! id).
  - destruct (assessments w !! id) as [doc|] eqn:Hid; [|done].
    destruct (truthy _); cbn; [|by rewrite Hid].
    destruct (uploader_destroy e _ _); cbn; [done|by rewrite Hid].
Qed.

Lemma assessments_after (e : env) (req : request) (w : World) :
  assessments (app e req w).2 =
    match req with
    | POST_upload_assessment req_body =>
        if negb (truthy (get req_body "title"))
           || negb (truthy (get req_body "teacherName"))
           || negb (truthy (get req_body "url"))
           || negb (truthy (get req_body "public_id"))
        then assessments w
        else <[ fresh (dom (assessments w)) :=
                  resolve (store_now e) None <$>
                    newAssessmentData (get req_body "title")
                      (get req_body "teacherName") (get req_body "url")
                      (get req_body "public_id") ]>
               (assessments w)
    | PUT_assessments id req_body =>
        if negb (truthy (get req_body "title")) then assessments w
        else match assessments w !! id with
             | Some doc =>
                 <[ id := <[ "title" := resolve (store_now e) (doc !! "title")
                                          (get req_body "title") ]> doc ]>
                   (assessments w)
             | None => assessments w
             end
    | DELETE_assessments id =>
        match assessments w !! id with
        | Some doc =>
            if truthy (get doc "public_id") then
              match uploader_destroy e (get doc "public_id") "raw" with
              | inr _ => delete id (assessments w)
              | inl _ => assessments w
              end
            else delete id (assessments w)
        | None => assessments w
        end
    | _ => assessments w
    end.
Proof.
  destruct req as [|req_body| |req_body|id|id| |req_body|id req_body|id];
    try (run_handler; done).
  - run_handler. by destruct (api_sign_request e _ _).
  - run_handler. by destruct (_ || _).
  - run_handler. by destruct (videos w !! id).
  - run_handler. by destruct (videos w !! id).
  - run_handler. by destruct (_ || _).
  - run_handler. destruct (negb _); [done|].
    destruct (assessments w !! id) as [doc|]; [|done].
    cbn. by rewrite apply_update_singleton.
  - destruct (assessments w !! id) as [doc|] eqn:Hid.
    + rewrite (delete_existing_assessment e id doc w Hid).
      destruct (truthy _); [|done]. by destruct (uploader_destroy e _ _).
    + run_handler. by rewrite Hid.
Qed.

(** ** The data model is kept *)

Lemma is_counter_zero (doc : object) field :
  doc !! field = Some (VInt 0) → is_counter doc field.
Proof. intros Hdoc. exists 0%Z. split; [lia|done]. Qed.

Lemma new_video_ok now title subject teacherName url public_id duration :
  video_ok (resolve now None <$>
              newVideoData title subject teacherName url public_id duration).
Proof.
  repeat split.
  - apply is_counter_zero. rewrite lookup_fmap.
    by replace (newVideoData _ _ _ _ _ _ !! "views") with (Some (VInt 0))
      by (vm_compute; reflexivity).
  - apply is_counter_zero. rewrite lookup_fmap.
    by replace (newVideoData _ _ _ _ _ _ !! "completions") with (Some (VInt 0))
      by (vm_compute; reflexivity).
  - exists now. rewrite lookup_fmap.
    by replace (newVideoData _ _ _ _ _ _ !! "createdAt") with (Some VServerTimestamp)
      by (vm_compute; reflexivity).
Qed.

Lemma new_assessment_created now title teacherName url public_id :
  is_created (resolve now None <$> newAssessmentData title teacherName url public_id).
Proof.
  exists now. rewrite lookup_fmap.
  by replace (newAssessmentData _ _ _ _ !! "createdAt") with (Some VServerTimestamp)
    by (vm_compute; reflexivity).
Qed.

Lemma bump_counter now (doc : object) field n :
  doc !! field = Some (VInt n) →
  resolve now (doc !! field) (VIncrement 1) = VInt (n + 1).
Proof. by intros ->. Qed.

Lemma video_ok_view now (doc : object) :
  video_ok doc →
  video_ok (<[ "views" := resolve now (doc !! "views") (VIncrement 1) ]> doc).
Proof.
  intros ((n & Hn & Hviews) & (m & Hm & Hcompletions) & (t & Ht)).
  rewrite (bump_counter _ _ _ _ Hviews). repeat split.
  - exists (n + 1)%Z. split; [lia|]. apply lookup_insert_eq.
  - exists m. split; [done|]. by rewrite lookup_insert_ne.
  - exists t. by rewrite lookup_insert_ne.
Qed.

Lemma video_ok_complete now (doc : object) :
  video_ok doc →
  video_ok (<[ "completions" :=
                 resolve now (doc !! "completions") (VIncrement 1) ]> doc).
Proof.
  intros ((n & Hn & Hviews) & (m & Hm & Hcompletions) & (t & Ht)).
  rewrite (bump_counter _ _ _ _ Hcompletions). repeat split.
  - exists n. split; [done|]. by rewrite lookup_insert_ne.
  - exists (m + 1)%Z. split; [lia|]. apply lookup_insert_eq.
  - exists t. by rewrite lookup_insert_ne.
Qed.

Lemma store_ok_step (e : env) (req : request) (w : World) :
  store_ok w → store_ok (app e req w).2.
Proof.
  intros [Hvideos Hassessments]. split.
  - intros id doc. rewrite videos_after.
    destruct req as [|req_body| |req_body|id'|id'| |req_body|id' req_body|id'];
      try apply Hvideos.
    + destruct (video_refused req_body); [apply Hvideos|].
      intros [[_ <-]|[_ Hdoc]]%lookup_insert_Some;
        [apply new_video_ok|by eapply Hvideos].
    + destruct (videos w !! id') as [doc'|] eqn:Hid'; [|apply Hvideos].
      intros [[_ <-]|[_ Hdoc]]%lookup_insert_Some;
        [apply video_ok_view|]; by eapply Hvideos.
    + destruct (videos w !! id') as [doc'|] eqn:Hid'; [|apply Hvideos].
      intros [[_ <-]|[_ Hdoc]]%lookup_insert_Some;
        [apply video_ok_complete|]; by eapply Hvideos.
  - intros id doc. rewrite assessments_after.
    destruct req as [|req_body| |req_body|id'|id'| |req_body|id' req_body|id'];
      try apply Hassessments.
    + destruct (_ || _); [apply Hassessments|].
      intros [[_ <-]|[_ Hdoc]]%lookup_insert_Some;
        [apply new_assessment_created|by eapply Hassessments].
    + destruct (negb _); [apply Hassessments|].
      destruct (assessments w !! id') as [doc'|] eqn:Hid'; [|apply Hassessments].
      intros [[_ <-]|[_ Hdoc]]%lookup_insert_Some; [|by eapply Hassessments].
      destruct (Hassessments id' doc' Hid') as [t Ht].
      exists t. by rewrite lookup_insert_ne.
    + destruct (assessments w !! id') as [doc'|]; [|apply Hassessments].
      destruct (truthy _); [destruct (uploader_destroy e _ _)|];
        first [apply Hassessments
              |intros [_ Hdoc]%lookup_delete_Some; by eapply Hassessments].
Qed.

Lemma store_ok_run (trace : list (env * request)) (w : World) :
  store_ok w → store_ok (run trace w).
Proof.
  revert w. induction trace as [|step trace IH]; intros w Hok; [done|].
  apply IH. by apply store_ok_step.
Qed.

Lemma store_ok_empty : store_ok empty_world.
Proof. split; intros id doc Hdoc; cbn in Hdoc; by rewrite lookup_empty in Hdoc. Qed.

Lemma reachable_store_ok (w : World) : reachable w → store_ok w.
Proof.
  induction 1 as [|e req w _ IH]; [apply store_ok_empty|by apply store_ok_step].
Qed.

(** ** Counters *)

Lemma upload_video_status (e : env) (req_body : object) (w : World) :
  status (app e (POST_upload_video req_body) w).1 =
    if video_refused req_body then 400%Z else 201%Z.
Proof.
  run_handler. fold (video_refused req_body). by destruct (video_refused req_body).
Qed.

Lemma increment_existing (e : env) (id field ack label : string)
    (doc : object) (n : Z) (w : World) :
  videos w !! id = Some doc →
  doc !! field = Some (VInt n) →
  increment_video e id field ack label w =
    (Normal (respond 200 (message ack)),
     set_docs Videos (<[ id := <[ field := VInt (n + 1) ]> doc ]> (videos w)) w).
Proof.
  intros Hid Hfield. unfold increment_video. run_handler. rewrite Hid. cbn.
  by rewrite apply_update_singleton, (bump_counter _ _ _ _ Hfield).
Qed.

Lemma video_step (e : env) (req : request) (id : string) (doc : object)
    (views completions : Z) (w : World) :
  videos w !! id = Some doc →
  doc !! "views" = Some (VInt views) →
  doc !! "completions" = Some (VInt completions) →
  ∃ doc',
    videos (app e req w).2 !! id = Some doc' ∧
    doc' !! "views" = Some (VInt (views + (if is_view id req then 1 else 0))) ∧
    doc' !! "completions" =
      Some (VInt (completions + (if is_complete id req then 1 else 0))) ∧
    ∀ k, k ≠ "views" → k ≠ "completions" → doc' !! k = doc !! k.
Proof.
  intros Hid Hviews Hcompletions. rewrite videos_after.
  assert (∃ doc', videos w !! id = Some doc' ∧
            doc' !! "views" = Some (VInt (views + 0)) ∧
            doc' !! "completions" = Some (VInt (completions + 0)) ∧
            ∀ k, k ≠ "views" → k ≠ "completions" → doc' !! k = doc !! k) as Hsame.
  { exists doc. by rewrite !Z.add_0_r. }
  destruct req as [|req_body| |req_body|id'|id'| |req_body|id' req_body|id'];
    cbn [is_view is_complete]; try exact Hsame.
  - destruct (video_refused req_body); [exact Hsame|].
    rewrite lookup_insert_ne; [exact Hsame|].
    intros Heq. pose proof (fresh_video_id w) as Hfresh. congruence.
  - case_bool_decide as Hsame_id.
    + subst id'. rewrite Hid, lookup_insert_eq, (bump_counter _ _ _ _ Hviews).
      eexists. split; [done|]. rewrite lookup_insert_eq, lookup_insert_ne by done.
      rewrite Z.add_0_r. repeat split; [done|].
      intros k Hk _. by rewrite lookup_insert_ne.
    + destruct (videos w !! id'); [|exact Hsame].
      by rewrite lookup_insert_ne.
  - case_bool_decide as Hsame_id.
    + subst id'. rewrite Hid, lookup_insert_eq, (bump_counter _ _ _ _ Hcompletions).
      eexists. split; [done|]. rewrite lookup_insert_eq, lookup_insert_ne by done.
      rewrite Z.add_0_r. repeat split; [done|].
      intros k _ Hk. by rewrite lookup_insert_ne.
    + destruct (videos w !! id'); [|exact Hsame].
      by rewrite lookup_insert_ne.
Qed.

Lemma tally_nonneg p trace : (0 ≤ tally p trace)%Z.
Proof. induction trace as [|step trace IH]; cbn; [lia|]. destruct (p _); lia. Qed.

Lemma video_run (trace : list (env * request)) (id : string) (doc : object)
    (views completions : Z) (w : World) :
  videos w !! id = Some doc →
  doc !! "views" = Some (VInt views) →
  doc !! "completions" = Some (VInt completions) →
  ∃ doc',
    videos (run trace w) !! id = Some doc' ∧
    doc' !! "views" = Some (VInt (views + tally (is_view id) trace)) ∧
    doc' !! "completions" =
      Some (VInt (completions + tally (is_complete id) trace)) ∧
    ∀ k, k ≠ "views" → k ≠ "completions" → doc' !! k = doc !! k.
Proof.
  revert doc views completions w.
  induction trace as [|[e req] trace IH]; intros doc views completions w Hid Hv Hc.
  - exists doc. cbn. by rewrite !Z.add_0_r.
  - destruct (video_step e req id doc views completions w Hid Hv Hc)
      as (doc1 & Hid1 & Hv1 & Hc1 & Hother1).
    destruct (IH doc1 _ _ _ Hid1 Hv1 Hc1) as (doc' & Hid' & Hv' & Hc' & Hother').
    exists doc'. split; [exact Hid'|]. cbn [tally fst snd].
    rewrite Hv', Hc'. split; [|split].
    + by rewrite Z.add_assoc.
    + by rewrite Z.add_assoc.
    + intros k Hk1 Hk2. by rewrite Hother', Hother1.
Qed.

Lemma tally_views_only (e : env) (id : string) (K : nat) :
  tally (is_view id) (replicate K (e, POST_videos_view id)) = Z.of_nat K ∧
  tally (is_complete id) (replicate K (e, POST_videos_view id)) = 0%Z.
Proof.
  induction K as [|K [IHv IHc]]; [done|].
  cbn [replicate tally snd is_view is_complete].
  rewrite bool_decide_true by done. lia.
Qed.

Lemma tally_completes_only (e : env) (id : string) (K : nat) :
  tally (is_complete id) (replicate K (e, POST_videos_complete id)) = Z.of_nat K ∧
  tally (is_view id) (replicate K (e, POST_videos_complete id)) = 0%Z.
Proof.
  induction K as [|K [IHc IHv]]; [done|].
  cbn [replicate tally snd is_view is_complete].
  rewrite bool_decide_true by done. lia.
Qed.

(** C4.  A video that is created gets both counters at 0.  On an existing
    video whose counters hold [views] and [completions], a view request
    is answered with 200 and writes [views + 1] and nothing else, and a
    complete request does the same for [completions]; [K] view requests
    in a row leave [views + K], [K] complete requests leave
    [completions + K]; and after any run of requests, however the
    increments are interleaved with other requests, the record is still
    there, [views] has grown by the number of view requests made on it,
    [completions] by the number of complete requests, a counter that was
    not negative is still not negative, and no other property of the
    record has changed. *)
Theorem video_counters (e : env) (w : World) :
  (∀ req_body,
     status (app e (POST_upload_video req_body) w).1 = 201%Z →
     ∃ id doc,
       videos w !! id = None ∧
       videos (app e (POST_upload_video req_body) w).2 = <[ id := doc ]> (videos w) ∧
       doc !! "views" = Some (VInt 0) ∧ doc !! "completions" = Some (VInt 0)) ∧
  (∀ id doc views completions,
     videos w !! id = Some doc →
     doc !! "views" = Some (VInt views) →
     doc !! "completions" = Some (VInt completions) →
     app e (POST_videos_view id) w =
       (respond 200 (message "View count updated successfully."),
        set_docs Videos (<[ id := <[ "views" := VInt (views + 1) ]> doc ]> (videos w)) w) ∧
     app e (POST_videos_complete id) w =
       (respond 200 (message "Completion count updated successfully."),
        set_docs Videos
          (<[ id := <[ "completions" := VInt (completions + 1) ]> doc ]> (videos w)) w) ∧
     (∀ K : nat,
      ∃ doc',
        videos (run (replicate K (e, POST_videos_view id)) w) !! id = Some doc' ∧
        doc' !! "views" = Some (VInt (views + Z.of_nat K)) ∧
        doc' !! "completions" = Some (VInt completions)) ∧
     (∀ K : nat,
      ∃ doc',
        videos (run (replicate K (e, POST_videos_complete id)) w) !! id = Some doc' ∧
        doc' !! "views" = Some (VInt views) ∧
        doc' !! "completions" = Some (VInt (completions + Z.of_nat K))) ∧
     ∀ trace : list (env * request),
     ∃ doc',
       videos (run trace w) !! id = Some doc' ∧
       doc' !! "views" = Some (VInt (views + tally (is_view id) trace)) ∧
       doc' !! "completions" =
         Some (VInt (completions + tally (is_complete id) trace)) ∧
       ((0 ≤ views)%Z → (0 ≤ views + tally (is_view id) trace)%Z) ∧
       ((0 ≤ completions)%Z → (0 ≤ completions + tally (is_complete id) trace)%Z) ∧
       ∀ k, k ≠ "views" → k ≠ "completions" → doc' !! k = doc !! k).
Proof.
  split.
  - intros req_body Hstatus. rewrite upload_video_status in Hstatus.
    rewrite videos_after. destruct (video_refused req_body); [discriminate|].
    eexists _, _. split; [apply fresh_video_id|]. split; [reflexivity|].
    rewrite !lookup_fmap.
    split.
    + by replace (newVideoData _ _ _ _ _ _ !! "views") with (Some (VInt 0))
        by (vm_compute; reflexivity).
    + by replace (newVideoData _ _ _ _ _ _ !! "completions") with (Some (VInt 0))
        by (vm_compute; reflexivity).
  - intros id doc views completions Hid Hv Hc. split; [|split; [|split; [|split]]].
    + unfold app, route, view_video.
      by rewrite (increment_existing e id "views" _ _ doc views w Hid Hv).
    + unfold app, route, complete_video.
      by rewrite (increment_existing e id "completions" _ _ doc completions w Hid Hc).
    + intros K.
      destruct (video_run (replicate K (e, POST_videos_view id)) id doc
                  views completions w Hid Hv Hc) as (doc' & Hid' & Hv' & Hc' & _).
      destruct (tally_views_only e id K) as [Hviews Hcompletes].
      rewrite Hviews in Hv'. rewrite Hcompletes, Z.add_0_r in Hc'. by exists doc'.
    + intros K.
      destruct (video_run (replicate K (e, POST_videos_complete id)) id doc
                  views completions w Hid Hv Hc) as (doc' & Hid' & Hv' & Hc' & _).
      destruct (tally_completes_only e id K) as [Hcompletes Hviews].
      rewrite Hviews, Z.add_0_r in Hv'. rewrite Hcompletes in Hc'. by exists doc'.
    + intros trace.
      destruct (video_run trace id doc views completions w Hid Hv Hc)
        as (doc' & Hid' & Hv' & Hc' & Hother).
      exists doc'. repeat split; try done.
      * pose proof (tally_nonneg (is_view id) trace). lia.
      * pose proof (tally_nonneg (is_complete id) trace). lia.
Qed.

Lemma video_counters_witness :
  (status (app sample_env
             (POST_upload_video (sample_video_body (VStr "Decimals") (VInt 95)))
             sample_video_world).1 = 201%Z ∧
   ∃ id doc,
     videos sample_video_world !! id = None ∧
     videos (app sample_env
               (POST_upload_video (sample_video_body (VStr "Decimals") (VInt 95)))
               sample_video_world).2 = <[ id := doc ]> (videos sample_video_world) ∧
     doc !! "views" = Some (VInt 0) ∧ doc !! "completions" = Some (VInt 0)) ∧
  (videos sample_video_world !! "v1" = Some (sample_video 7) ∧
   sample_video 7 !! "views" = Some (VInt 7) ∧
   sample_video 7 !! "completions" = Some (VInt 0) ∧
   app sample_env (POST_videos_view "v1") sample_video_world =
     (respond 200 (message "View count updated successfully."),
      set_docs Videos
        (<[ "v1" := <[ "views" := VInt (7 + 1) ]> (sample_video 7) ]>
           (videos sample_video_world))
        sample_video_world) ∧
   (∃ doc',
      videos (run (replicate 3 (sample_env, POST_videos_view "v1")) sample_video_world)
        !! "v1" = Some doc' ∧
      doc' !! "views" = Some (VInt 10)) ∧
   ∃ doc',
     videos (run sample_trace sample_video_world) !! "v1" = Some doc' ∧
     doc' !! "views" = Some (VInt 9) ∧
     doc' !! "completions" = Some (VInt 1)).
Proof.
  pose proof (video_counters sample_env sample_video_world) as [Hcreate Hcount].
  split.
  - split; [reflexivity|]. apply Hcreate. reflexivity.
  - assert (videos sample_video_world !! "v1" = Some (sample_video 7)) as Hid
      by reflexivity.
    assert (sample_video 7 !! "views" = Some (VInt 7)) as Hviews by reflexivity.
    assert (sample_video 7 !! "completions" = Some (VInt 0)) as Hcompletions
      by reflexivity.
    destruct (Hcount "v1" (sample_video 7) 7%Z 0%Z Hid Hviews Hcompletions)
      as (Hview & _ & Hrepeat & _ & Hrun).
    destruct (Hrepeat 3) as (doc3 & Hdoc3 & Hv3 & _).
    destruct (Hrun sample_trace) as (doc' & Hdoc' & Hv' & Hc' & _).
    split; [exact Hid|]. split; [exact Hviews|]. split; [exact Hcompletions|].
    split; [exact Hview|]. split.
    + exists doc3. split; [exact Hdoc3|exact Hv3].
    + exists doc'. split; [exact Hdoc'|]. split; [exact Hv'|exact Hc'].
Defined.

Lemma list_returns_all_newest_first_witness :
  (∀ id doc, docs Videos sample_library !! id = Some doc → is_created doc) ∧
  ∃ listing : list (string * object),
    app later_env (list_request Videos) sample_library =
      ({| status := 200; body := JArray (with_id <$> listing) |}, sample_library) ∧
    listing ≡ₚ map_to_list (docs Videos sample_library) ∧
    length listing = size (docs Videos sample_library) ∧
    Forall (λ entry, entry_of entry.1 entry.2 (with_id entry)) listing ∧
    ∀ i j id1 doc1 id2 doc2 t1 t2,
      i < j →
      listing !! i = Some (id1, doc1) → listing !! j = Some (id2, doc2) →
      doc1 !! "createdAt" = Some (VTimestamp t1) →
      doc2 !! "createdAt" = Some (VTimestamp t2) →
      (t2 ≤ t1)%Z.
Proof.
  assert (∀ id doc, docs Videos sample_library !! id = Some doc → is_created doc)
    as Hcreated.
  { intros id doc Hdoc.
    destruct (store_ok_run
                [(sample_env,
                  POST_upload_video (sample_video_body (VStr "Fractions") (VInt 0)));
                 (later_env,
                  POST_upload_video (sample_video_body (VStr "Decimals") (VInt 95)));
                 (later_env, POST_videos_view "0")]
                empty_world store_ok_empty) as [Hvideos _].
    by destruct (Hvideos id doc Hdoc) as (_ & _ & Hc). }
  split; [exact Hcreated|].
  apply (list_returns_all_newest_first later_env Videos sample_library Hcreated).
Defined.

(** * The rest of the application *)

(** ** Each route as one equation *)

Lemma app_root (e : env) (w : World) :
  app e GET_root w = (respond 200 (message "Joe Learn API is running!"), w).
Proof. reflexivity. Qed.

Lemma app_upload_video (e : env) (req_body : object) (w : World) :
  app e (POST_upload_video req_body) w =
    if video_refused req_body
    then (respond 400 (message "Missing required video data."), w)
    else
      (respond 201
         (returned_video (fresh (dom (videos w))) (toISOString e (js_now e))
            (get req_body "title") (get req_body "subject")
            (get req_body "teacherName") (get req_body "url")
            (get req_body "public_id") (get req_body "duration")),
       set_docs Videos
         (<[ fresh (dom (videos w)) :=
               resolve (store_now e) None <$>
                 newVideoData (get req_body "title") (get req_body "subject")
                   (get req_body "teacherName") (get req_body "url")
                   (get req_body "public_id") (get req_body "duration") ]>
            (videos w)) w).
Proof.
  run_handler. fold (video_refused req_body).
  destruct (video_refused req_body); [done|].
  unfold returned_video, assign. by rewrite <- insert_union_singleton_r.
Qed.

Lemma app_upload_assessment (e : env) (req_body : object) (w : World) :
  app e (POST_upload_assessment req_body) w =
    if assessment_refused req_body
    then (respond 400 (message "Missing required assessment data."), w)
    else
      (respond 201
         (returned_assessment (fresh (dom (assessments w))) (toISOString e (js_now e))
            (get req_body "title") (get req_body "teacherName")
            (get req_body "url") (get req_body "public_id")),
       set_docs Assessments
         (<[ fresh (dom (assessments w)) :=
               resolve (store_now e) None <$>
                 newAssessmentData (get req_body "title") (get req_body "teacherName")
                   (get req_body "url") (get req_body "public_id") ]>
            (assessments w)) w).
Proof.
  run_handler. fold (assessment_refused req_body).
  destruct (assessment_refused req_body); [done|].
  unfold returned_assessment, assign. by rewrite <- insert_union_singleton_r.
Qed.

Lemma app_increment (e : env) (req : request) (id field ack label : string)
    (w : World) :
  route e req = increment_video e id field ack label →
  app e req w =
    match videos w !! id with
    | Some doc =>
        (respond 200 (message ack),
         set_docs Videos
           (<[ id := <[ field := resolve (store_now e) (doc !! field) (VIncrement 1) ]>
                       doc ]> (videos w)) w)
    | None =>
        (respond 500 (message internal_error_text),
         logged [(label, NotFound (document_path Videos id));
                 ("An unhandled error occurred:", NotFound (document_path Videos id))]
           w)
    end.
Proof.
  intros Hroute. unfold app. rewrite Hroute. unfold increment_video. run_handler.
  destruct (videos w !! id) as [doc|]; cbn.
  - by rewrite apply_update_singleton.
  - unfold logged. cbn. by rewrite <- app_assoc.
Qed.

Lemma app_update_assessment (e : env) (id : string) (req_body : object) (w : World) :
  app e (PUT_assessments id req_body) w =
    if negb (truthy (get req_body "title"))
    then (respond 400 (message "New title is required."), w)
    else
      match assessments w !! id with
      | Some doc =>
          (respond 200 (message "Assessment updated successfully."),
           set_docs Assessments
             (<[ id := <[ "title" := resolve (store_now e) (doc !! "title")
                                       (get req_body "title") ]> doc ]>
                (assessments w)) w)
      | None =>
          (respond 500 (message internal_error_text),
           logged [("Error updating assessment:", NotFound (document_path Assessments id));
                   ("An unhandled error occurred:",
                    NotFound (document_path Assessments id))] w)
      end.
Proof.
  run_handler. destruct (negb _); [done|].
  destruct (assessments w !! id) as [doc|]; cbn.
  - by rewrite apply_update_singleton.
  - unfold logged. cbn. by rewrite <- app_assoc.
Qed.

Lemma app_delete_assessment (e : env) (id : string) (w : World) :
  app e (DELETE_assessments id) w =
    match assessments w !! id with
    | Some doc =>
        if truthy (get doc "public_id") then
          match uploader_destroy e (get doc "public_id") "raw" with
          | inr _ =>
              (respond 200 (message "Assessment deleted successfully."),
               set_docs Assessments (delete id (assessments w))
                 (after_destroy (get doc "public_id") "raw" w))
          | inl err =>
              (respond 500 (message internal_error_text),
               logged [("Error deleting assessment:", err);
                       ("An unhandled error occurred:", err)]
                 (after_destroy (get doc "public_id") "raw" w))
          end
        else
          (respond 200 (message "Assessment deleted successfully."),
           set_docs Assessments (delete id (assessments w)) w)
    | None => (respond 404 (message "Assessment not found."), w)
    end.
Proof.
  destruct (assessments w !! id) as [doc|] eqn:Hid.
  - by apply delete_existing_assessment.
  - run_handler. by rewrite Hid.
Qed.

Lemma set_docs_parts c d w :
  destroyed (set_docs c d w) = destroyed w ∧ stderr (set_docs c d w) = stderr w ∧
  videos (set_docs c d w) = (match c with Videos => d | Assessments => videos w end) ∧
  assessments (set_docs c d w) =
    (match c with Videos => assessments w | Assessments => d end).
Proof. by destruct c. Qed.

(** ** The timestamp of a signature *)

(** X1.  The timestamp is the whole second nearest to the clock: it is
    within half a second of it, a clock exactly between two seconds goes
    to the later one, and a later clock never gives an earlier
    timestamp. *)
Theorem round_seconds_nearest (ms ms' : Z) :
  (1000 * round_seconds ms - 500 ≤ ms < 1000 * round_seconds ms + 500)%Z ∧
  (∀ k : Z, round_seconds (1000 * k + 500) = (k + 1)%Z ∧
            round_seconds (1000 * k + 499) = k) ∧
  ((ms ≤ ms')%Z → (round_seconds ms ≤ round_seconds ms')%Z).
Proof.
  unfold round_seconds. split; [|split].
  - pose proof (Z.div_mod (ms + 500) 1000 ltac:(lia)) as Hdiv.
    pose proof (Z.mod_pos_bound (ms + 500) 1000 ltac:(lia)) as Hmod. lia.
  - intros k. split.
    + replace (1000 * k + 500 + 500)%Z with ((k + 1) * 1000)%Z by lia.
      by rewrite Z.div_mul.
    + replace (1000 * k + 499 + 500)%Z with (999 + k * 1000)%Z by lia.
      rewrite Z.div_add by lia. reflexivity.
  - intros Hle. apply Z.div_le_mono; lia.
Qed.

(** X2.  The parameters that are signed are the properties of the body,
    each with the value the client sent, and besides them only
    [timestamp]. *)
Theorem params_to_sign_fields (timestamp : Z) (req_body : object) :
  (∀ k v, req_body !! k = Some v → params_to_sign timestamp req_body !! k = Some v) ∧
  (∀ k, k ≠ "timestamp" → params_to_sign timestamp req_body !! k = req_body !! k) ∧
  dom (params_to_sign timestamp req_body) = dom req_body ∪ {[ "timestamp" ]}.
Proof.
  unfold params_to_sign, assign. split; [|split].
  - intros k v Hk. by apply lookup_union_Some_l.
  - intros k Hk. rewrite lookup_union, lookup_singleton_ne by done.
    by destruct (req_body !! k).
  - by rewrite dom_union_L, dom_singleton_L.
Qed.

(** X3.  A signature request never touches the collections or the storage
    provider.  When the signing function returns, the reply is 200 and
    nothing at all changes; when it throws, the handler answers 500
    itself, and the error is written to the error log once, under the
    label of this handler and not under that of the global handler. *)
Theorem generate_signature_stateless (e : env) (req_body : object) (w : World) :
  let (reply, w') := app e (POST_generate_signature req_body) w in
  videos w' = videos w ∧ assessments w' = assessments w ∧
  destroyed w' = destroyed w ∧
  match api_sign_request e (params_to_sign (round_seconds (js_now e)) req_body)
          (api_secret cloudinary_config) with
  | inr _ => status reply = 200%Z ∧ w' = w
  | inl err =>
      reply = respond 500 (message signature_error_text) ∧
      stderr w' = (stderr w ++ [("Error generating Cloudinary signature:", err)])%list
  end.
Proof.
  rewrite generate_signature_reply.
  by destruct (api_sign_request e _ _).
Qed.

(** ** Creating an assessment *)

Lemma stored_assessment_resolve now title teacherName url public_id :
  is_field_value title = false → is_field_value teacherName = false →
  is_field_value url = false → is_field_value public_id = false →
  resolve now None <$> newAssessmentData title teacherName url public_id
  = stored_assessment now title teacherName url public_id.
Proof.
  intros. unfold stored_assessment, newAssessmentData.
  rewrite !fmap_insert, map_fmap_singleton.
  rewrite !resolve_plain by done. cbn [resolve].
  rewrite !(insert_insert_ne _ "createdAt") by done.
  by rewrite insert_singleton_eq.
Qed.

Lemma fresh_assessment_id (w : World) :
  assessments w !! fresh (dom (assessments w)) = None.
Proof. apply not_elem_of_dom, is_fresh. Qed.

Lemma assessment_refused_false (req_body : object) :
  assessment_refused req_body = false ↔
  truthy (get req_body "title") = true ∧ truthy (get req_body "teacherName") = true ∧
  truthy (get req_body "url") = true ∧ truthy (get req_body "public_id") = true.
Proof.
  unfold assessment_refused.
  destruct (truthy (get req_body "title")), (truthy (get req_body "teacherName")),
    (truthy (get req_body "url")), (truthy (get req_body "public_id")); cbn;
    (split; [intros Hd; first [discriminate Hd|done]|intros (? & ? & ? & ?); congruence]).
Qed.

(** X4.  An assessment needs [title], [teacherName], [url] and
    [public_id], and nothing else: when one of the four is absent or
    falsy the reply is 400 and the world is left as it was; when the four
    are truthy the reply is 201 with the created record, which is written
    under an identifier that was unused, with [teacherName] kept under
    the name [teacher] and the commit time as [createdAt], while the
    reply carries the time of the reply as text.  The videos, the storage
    provider and the error log are not touched. *)
Theorem upload_assessment_outcome (e : env) (req_body : object) (w : World) :
  (∀ k, k ∈ ["title"; "teacherName"; "url"; "public_id"] →
        truthy (get req_body k) = false →
        app e (POST_upload_assessment req_body) w =
          (respond 400 (message "Missing required assessment data."), w)) ∧
  (parsed req_body →
   truthy (get req_body "title") = true →
   truthy (get req_body "teacherName") = true →
   truthy (get req_body "url") = true →
   truthy (get req_body "public_id") = true →
   let id := fresh (dom (assessments w)) in
   assessments w !! id = None ∧
   app e (POST_upload_assessment req_body) w =
     (respond 201
        (returned_assessment id (toISOString e (js_now e))
           (get req_body "title") (get req_body "teacherName")
           (get req_body "url") (get req_body "public_id")),
      set_docs Assessments
        (<[ id := stored_assessment (store_now e)
                    (get req_body "title") (get req_body "teacherName")
                    (get req_body "url") (get req_body "public_id") ]>
           (assessments w)) w)).
Proof.
  split.
  - intros k Hk Hfalsy. rewrite app_upload_assessment.
    replace (assessment_refused req_body) with true; [done|].
    symmetry. unfold assessment_refused.
    repeat (apply elem_of_cons in Hk as [->|Hk];
            [rewrite Hfalsy; cbn; by rewrite ?orb_true_r|]).
    by apply elem_of_nil in Hk.
  - intros Hparsed Ht Hn Hu Hp id. split; [apply fresh_assessment_id|].
    rewrite app_upload_assessment.
    replace (assessment_refused req_body) with false
      by (symmetry; by apply assessment_refused_false).
    by rewrite stored_assessment_resolve by (by apply parsed_get).
Qed.

Lemma parsed_sample_assessment_body : parsed sample_assessment_body.
Proof.
  unfold parsed, sample_assessment_body.
  repeat (apply map_Forall_insert_2; [done|]). apply map_Forall_empty.
Qed.

Lemma upload_assessment_outcome_witness :
  ("url" ∈ ["title"; "teacherName"; "url"; "public_id"] ∧
   truthy (get (delete "url" sample_assessment_body) "url") = false ∧
   app sample_env (POST_upload_assessment (delete "url" sample_assessment_body))
     sample_video_world =
     (respond 400 (message "Missing required assessment data."), sample_video_world)) ∧
  (parsed sample_assessment_body ∧
   truthy (get sample_assessment_body "title") = true ∧
   truthy (get sample_assessment_body "teacherName") = true ∧
   truthy (get sample_assessment_body "url") = true ∧
   truthy (get sample_assessment_body "public_id") = true ∧
   status (app sample_env (POST_upload_assessment sample_assessment_body)
             sample_video_world).1 = 201%Z).
Proof.
  pose proof (upload_assessment_outcome sample_env (delete "url" sample_assessment_body)
                sample_video_world) as [Hrefuse _].
  pose proof (upload_assessment_outcome sample_env sample_assessment_body
                sample_video_world) as [_ Haccept].
  assert ("url" ∈ ["title"; "teacherName"; "url"; "public_id"]) as Hin
    by (do 2 apply list_elem_of_further; apply list_elem_of_here).
  split.
  - split; [exact Hin|]. split; [reflexivity|]. apply (Hrefuse "url" Hin). reflexivity.
  - destruct (Haccept parsed_sample_assessment_body eq_refl eq_refl eq_refl eq_refl)
      as [_ Hreply].
    split; [exact parsed_sample_assessment_body|].
    do 4 (split; [reflexivity|]). by rewrite Hreply.
Defined.

(** X5.  What is written for a new record is fixed by the handler, not by
    the body: a new video has exactly the nine properties [title],
    [subject], [teacher], [url], [public_id], [duration], [views],
    [completions], [createdAt], a new assessment exactly the five
    [title], [teacher], [url], [public_id], [createdAt]; [createdAt] is
    the commit time of the store; any other property of the body, such as
    [id], [views] or [createdAt], is not stored. *)
Theorem created_record_properties (e : env) (req_body : object) (w : World) :
  (status (app e (POST_upload_video req_body) w).1 = 201%Z →
   ∃ doc,
     videos (app e (POST_upload_video req_body) w).2 =
       <[ fresh (dom (videos w)) := doc ]> (videos w) ∧
     dom doc = {[ "title"; "subject"; "teacher"; "url"; "public_id"; "duration";
                  "views"; "completions"; "createdAt" ]} ∧
     doc !! "createdAt" = Some (VTimestamp (store_now e))) ∧
  (status (app e (POST_upload_assessment req_body) w).1 = 201%Z →
   ∃ doc,
     assessments (app e (POST_upload_assessment req_body) w).2 =
       <[ fresh (dom (assessments w)) := doc ]> (assessments w) ∧
     dom doc = {[ "title"; "teacher"; "url"; "public_id"; "createdAt" ]} ∧
     doc !! "createdAt" = Some (VTimestamp (store_now e))).
Proof.
  split.
  - rewrite app_upload_video. destruct (video_refused req_body); [discriminate|].
    intros _. eexists. split; [reflexivity|]. split.
    + rewrite dom_fmap_L. unfold newVideoData.
      rewrite !dom_insert_L, dom_singleton_L. set_solver.
    + rewrite lookup_fmap.
      by replace (newVideoData _ _ _ _ _ _ !! "createdAt") with (Some VServerTimestamp)
        by (vm_compute; reflexivity).
  - rewrite app_upload_assessment. destruct (assessment_refused req_body); [discriminate|].
    intros _. eexists. split; [reflexivity|]. split.
    + rewrite dom_fmap_L. unfold newAssessmentData.
      rewrite !dom_insert_L, dom_singleton_L. set_solver.
    + rewrite lookup_fmap.
      by replace (newAssessmentData _ _ _ _ !! "createdAt") with (Some VServerTimestamp)
        by (vm_compute; reflexivity).
Qed.

Lemma created_record_properties_witness :
  status (app sample_env (POST_upload_assessment sample_assessment_body)
            sample_video_world).1 = 201%Z ∧
  sample_assessment_body !! "views" = Some (VInt 1000) ∧
  ∃ doc,
    assessments (app sample_env (POST_upload_assessment sample_assessment_body)
                   sample_video_world).2 =
      <[ fresh (dom (assessments sample_video_world)) := doc ]>
        (assessments sample_video_world) ∧
    dom doc = {[ "title"; "teacher"; "url"; "public_id"; "createdAt" ]} ∧
    doc !! "createdAt" = Some (VTimestamp (store_now sample_env)).
Proof.
  split; [reflexivity|]. split; [reflexivity|].
  apply (created_record_properties sample_env sample_assessment_body sample_video_world).
  reflexivity.
Defined.

(** ** Renaming an assessment *)

(** X6.  The title is checked before the record is looked up: a PUT whose
    [title] is absent or falsy is answered with 400 and changes nothing,
    whether the record exists or not; a PUT with a truthy title on an
    identifier that names no assessment is answered with the fixed 500
    reply, not with 404, and only the error log changes. *)
Theorem update_assessment_refused (e : env) (id : string) (req_body : object)
    (w : World) :
  (truthy (get req_body "title") = false →
   app e (PUT_assessments id req_body) w =
     (respond 400 (message "New title is required."), w)) ∧
  (truthy (get req_body "title") = true →
   assessments w !! id = None →
   app e (PUT_assessments id req_body) w =
     (respond 500 (message internal_error_text),
      logged [("Error updating assessment:", NotFound (document_path Assessments id));
              ("An unhandled error occurred:", NotFound (document_path Assessments id))]
        w)).
Proof.
  split.
  - intros Hfalsy. by rewrite app_update_assessment, Hfalsy.
  - intros Htruthy Hid. by rewrite app_update_assessment, Htruthy, Hid.
Qed.

Lemma update_assessment_refused_witness :
  (truthy (get (∅ : object) "title") = false ∧
   app sample_env (PUT_assessments "missing" ∅) (sample_world VNull) =
     (respond 400 (message "New title is required."), sample_world VNull)) ∧
  (truthy (get sample_assessment_body "title") = true ∧
   assessments (sample_world VNull) !! "missing" = None ∧
   status (app sample_env (PUT_assessments "missing" sample_assessment_body)
             (sample_world VNull)).1 = 500%Z).
Proof.
  pose proof (update_assessment_refused sample_env "missing" ∅ (sample_world VNull))
    as [Hrefuse _].
  pose proof (update_assessment_refused sample_env "missing" sample_assessment_body
                (sample_world VNull)) as [_ Hmissing].
  split.
  - split; [reflexivity|]. apply Hrefuse. reflexivity.
  - split; [reflexivity|]. split; [reflexivity|].
    by rewrite (Hmissing eq_refl eq_refl).
Defined.

(** X7.  A PUT with a truthy title on an existing assessment is answered
    with 200 and replaces the title of that record by the title of the
    body; every other property of the record, every other record, the
    videos, the storage provider and the error log are left as they
    were. *)
Theorem update_assessment_changes_title_only
    (e : env) (id : string) (req_body doc : object) (w : World) :
  parsed req_body →
  truthy (get req_body "title") = true →
  assessments w !! id = Some doc →
  let (reply, w') := app e (PUT_assessments id req_body) w in
  reply = respond 200 (message "Assessment updated successfully.") ∧
  assessments w' !! id = Some (<[ "title" := get req_body "title" ]> doc) ∧
  (∀ k, k ≠ "title" →
        (<[ "title" := get req_body "title" ]> doc) !! k = doc !! k) ∧
  (∀ id', id' ≠ id → assessments w' !! id' = assessments w !! id') ∧
  videos w' = videos w ∧ destroyed w' = destroyed w ∧ stderr w' = stderr w.
Proof.
  intros Hparsed Htruthy Hid.
  rewrite app_update_assessment, Htruthy, Hid. cbn [negb].
  rewrite resolve_plain by (by apply parsed_get).
  cbn [set_docs assessments videos destroyed stderr].
  split; [done|]. split; [apply lookup_insert_eq|].
  split; [intros k Hk; by rewrite lookup_insert_ne|].
  split; [intros id' Hid'; by rewrite lookup_insert_ne|done].
Qed.

Lemma update_assessment_changes_title_only_witness :
  parsed sample_assessment_body ∧
  truthy (get sample_assessment_body "title") = true ∧
  assessments (sample_world VNull) !! "q1" = Some (sample_assessment VNull) ∧
  let (reply, w') :=
    app sample_env (PUT_assessments "q1" sample_assessment_body) (sample_world VNull) in
  reply = respond 200 (message "Assessment updated successfully.") ∧
  assessments w' !! "q1" =
    Some (<[ "title" := get sample_assessment_body "title" ]> (sample_assessment VNull)) ∧
  (∀ k, k ≠ "title" →
        (<[ "title" := get sample_assessment_body "title" ]> (sample_assessment VNull))
          !! k = sample_assessment VNull !! k) ∧
  (∀ id', id' ≠ "q1" →
          assessments w' !! id' = assessments (sample_world VNull) !! id') ∧
  videos w' = videos (sample_world VNull) ∧
  destroyed w' = destroyed (sample_world VNull) ∧
  stderr w' = stderr (sample_world VNull).
Proof.
  split; [exact parsed_sample_assessment_body|].
  split; [reflexivity|]. split; [reflexivity|].
  apply (update_assessment_changes_title_only sample_env "q1" sample_assessment_body
           (sample_assessment VNull) (sample_world VNull)
           parsed_sample_assessment_body eq_refl eq_refl).
Defined.

(** X8.  Renaming is idempotent, and the last title wins: after a PUT
    with a truthy title on an existing assessment, the same PUT again
    leaves the world as the first one left it, and a second PUT with
    another title leaves the world the second PUT alone would have
    left. *)
Theorem update_assessment_twice
    (e1 e2 : env) (id : string) (body1 body2 doc : object) (w : World) :
  parsed body1 → parsed body2 →
  truthy (get body1 "title") = true →
  truthy (get body2 "title") = true →
  assessments w !! id = Some doc →
  (app e2 (PUT_assessments id body1) (app e1 (PUT_assessments id body1) w).2).2 =
    (app e1 (PUT_assessments id body1) w).2 ∧
  (app e2 (PUT_assessments id body2) (app e1 (PUT_assessments id body1) w).2).2 =
    (app e2 (PUT_assessments id body2) w).2.
Proof.
  intros Hp1 Hp2 Ht1 Ht2 Hid.
  assert (∀ e e' (b b' : object),
            parsed b → parsed b' →
            truthy (get b "title") = true → truthy (get b' "title") = true →
            (app e' (PUT_assessments id b') (app e (PUT_assessments id b) w).2).2 =
            set_docs Assessments
              (<[ id := <[ "title" := get b' "title" ]> doc ]> (assessments w)) w)
    as Htwice.
  { intros e e' b b' Hb Hb' Htb Htb'.
    rewrite (app_update_assessment e id b w), Htb, Hid. cbn [negb snd].
    rewrite app_update_assessment, Htb'. cbn [negb set_docs assessments].
    rewrite lookup_insert_eq. cbn [snd set_docs videos assessments destroyed stderr].
    rewrite !resolve_plain by (by apply parsed_get).
    by rewrite !insert_insert_eq. }
  assert (∀ e (b : object),
            parsed b → truthy (get b "title") = true →
            (app e (PUT_assessments id b) w).2 =
            set_docs Assessments
              (<[ id := <[ "title" := get b "title" ]> doc ]> (assessments w)) w)
    as Honce.
  { intros e b Hb Htb. rewrite app_update_assessment, Htb, Hid. cbn [negb snd].
    by rewrite resolve_plain by (by apply parsed_get). }
  split.
  - by rewrite Htwice, Honce.
  - by rewrite Htwice, Honce.
Qed.

Lemma update_assessment_twice_witness :
  parsed sample_assessment_body ∧
  parsed (<[ "title" := VStr "Quiz 1 (corrected)" ]> sample_assessment_body) ∧
  truthy (get sample_assessment_body "title") = true ∧
  truthy (get (<[ "title" := VStr "Quiz 1 (corrected)" ]> sample_assessment_body)
            "title") = true ∧
  assessments (sample_world VNull) !! "q1" = Some (sample_assessment VNull) ∧
  (app later_env (PUT_assessments "q1" sample_assessment_body)
     (app sample_env (PUT_assessments "q1" sample_assessment_body)
        (sample_world VNull)).2).2 =
    (app sample_env (PUT_assessments "q1" sample_assessment_body)
       (sample_world VNull)).2 ∧
  (app later_env
     (PUT_assessments "q1"
        (<[ "title" := VStr "Quiz 1 (corrected)" ]> sample_assessment_body))
     (app sample_env (PUT_assessments "q1" sample_assessment_body)
        (sample_world VNull)).2).2 =
    (app later_env
       (PUT_assessments "q1"
          (<[ "title" := VStr "Quiz 1 (corrected)" ]> sample_assessment_body))
       (sample_world VNull)).2.
Proof.
  assert (parsed (<[ "title" := VStr "Quiz 1 (corrected)" ]> sample_assessment_body))
    as Hparsed2.
  { apply map_Forall_insert_2; [done|exact parsed_sample_assessment_body]. }
  split; [exact parsed_sample_assessment_body|]. split; [exact Hparsed2|].
  split; [reflexivity|]. split; [reflexivity|]. split; [reflexivity|].
  apply (update_assessment_twice sample_env later_env "q1" sample_assessment_body
           (<[ "title" := VStr "Quiz 1 (corrected)" ]> sample_assessment_body)
           (sample_assessment VNull) (sample_world VNull)
           parsed_sample_assessment_body Hparsed2 eq_refl eq_refl eq_refl).
Defined.

(** ** Deleting, again *)

(** X9.  A DELETE answers 200 at most once per record: after a DELETE
    that was answered with 200, a second DELETE of the same identifier is
    answered with 404, makes no further call to the storage provider and
    leaves the world as the first one left it.  A DELETE that was
    answered with 500 has removed nothing: the record it named is still
    there, and the assessments are what they were. *)
Theorem delete_assessment_twice (e1 e2 : env) (id : string) (w : World) :
  (status (app e1 (DELETE_assessments id) w).1 = 200%Z →
   app e2 (DELETE_assessments id) (app e1 (DELETE_assessments id) w).2 =
     (respond 404 (message "Assessment not found."),
      (app e1 (DELETE_assessments id) w).2)) ∧
  (status (app e1 (DELETE_assessments id) w).1 = 500%Z →
   is_Some (assessments w !! id) ∧
   assessments (app e1 (DELETE_assessments id) w).2 = assessments w).
Proof.
  rewrite (app_delete_assessment e1).
  destruct (assessments w !! id) as [doc|] eqn:Hid; [|by split].
  destruct (truthy (get doc "public_id"));
    [destruct (uploader_destroy e1 _ _) as [err|u]|]; cbn [fst snd status respond].
  - split; [discriminate|]. intros _. by split.
  - split; [|discriminate]. intros _.
    rewrite app_delete_assessment. cbn [set_docs assessments].
    by rewrite lookup_delete_eq.
  - split; [|discriminate]. intros _.
    rewrite app_delete_assessment. cbn [set_docs assessments].
    by rewrite lookup_delete_eq.
Qed.

Lemma delete_assessment_twice_witness :
  (status (app sample_env (DELETE_assessments "q1")
             (sample_world (VStr "joe-learn-assessments/q1"))).1 = 200%Z ∧
   app later_env (DELETE_assessments "q1")
     (app sample_env (DELETE_assessments "q1")
        (sample_world (VStr "joe-learn-assessments/q1"))).2 =
     (respond 404 (message "Assessment not found."),
      (app sample_env (DELETE_assessments "q1")
         (sample_world (VStr "joe-learn-assessments/q1"))).2)) ∧
  (status (app outage_env (DELETE_assessments "q1")
             (sample_world (VStr "joe-learn-assessments/q1"))).1 = 500%Z ∧
   is_Some (assessments (sample_world (VStr "joe-learn-assessments/q1")) !! "q1") ∧
   assessments (app outage_env (DELETE_assessments "q1")
                  (sample_world (VStr "joe-learn-assessments/q1"))).2 =
     assessments (sample_world (VStr "joe-learn-assessments/q1"))).
Proof.
  pose proof (delete_assessment_twice sample_env later_env "q1"
                (sample_world (VStr "joe-learn-assessments/q1"))) as [Hdone _].
  pose proof (delete_assessment_twice outage_env later_env "q1"
                (sample_world (VStr "joe-learn-assessments/q1"))) as [_ Hkept].
  split.
  - split; [reflexivity|]. apply Hdone. reflexivity.
  - split; [reflexivity|]. apply Hkept. reflexivity.
Defined.

(** X10.  Creating an assessment and then deleting it under the
    identifier of the reply makes one call to the storage provider, with
    the [public_id] that the creating body gave and the resource type
    raw.  When the provider accepts the call, the reply is 200 and the
    assessments are back to what they were before the creation; when it
    rejects the call, the reply is the fixed 500 and the created record
    is still there. *)
Theorem upload_then_delete_assessment
    (e1 e2 : env) (req_body : object) (w : World) :
  parsed req_body →
  truthy (get req_body "title") = true →
  truthy (get req_body "teacherName") = true →
  truthy (get req_body "url") = true →
  truthy (get req_body "public_id") = true →
  let (created, w1) := app e1 (POST_upload_assessment req_body) w in
  ∃ id record,
    created = respond 201 record ∧ record !! "id" = Some (VStr id) ∧
    let (reply, w2) := app e2 (DELETE_assessments id) w1 in
    destroyed w2 = (destroyed w ++ [(get req_body "public_id", "raw")])%list ∧
    videos w2 = videos w ∧
    match uploader_destroy e2 (get req_body "public_id") "raw" with
    | inr _ =>
        reply = respond 200 (message "Assessment deleted successfully.") ∧
        assessments w2 = assessments w ∧ stderr w2 = stderr w
    | inl err =>
        reply = respond 500 (message internal_error_text) ∧
        assessments w2 = assessments w1 ∧ is_Some (assessments w2 !! id)
    end.
Proof.
  intros Hparsed Ht Hn Hu Hp.
  rewrite app_upload_assessment.
  replace (assessment_refused req_body) with false
    by (symmetry; by apply assessment_refused_false).
  rewrite stored_assessment_resolve by (by apply parsed_get).
  eexists _, _. split; [reflexivity|].
  split.
  { unfold returned_assessment. rewrite lookup_insert_ne by done.
    apply lookup_insert_eq. }
  rewrite app_delete_assessment. cbn [set_docs assessments].
  rewrite lookup_insert_eq.
  replace (get (stored_assessment _ _ _ _ _) "public_id")
    with (get req_body "public_id") by (vm_compute; reflexivity).
  rewrite Hp.
  destruct (uploader_destroy e2 _ _) as [err|u];
    cbn [set_docs after_destroy logged assessments videos destroyed stderr].
  - split; [done|]. split; [done|]. split; [done|]. split; [done|].
    rewrite lookup_insert_eq. by eexists.
  - split; [done|]. split; [done|]. split; [done|]. split; [|done].
    rewrite delete_insert_eq. apply delete_id, fresh_assessment_id.
Qed.

Lemma upload_then_delete_assessment_witness :
  parsed sample_assessment_body ∧
  truthy (get sample_assessment_body "title") = true ∧
  truthy (get sample_assessment_body "teacherName") = true ∧
  truthy (get sample_assessment_body "url") = true ∧
  truthy (get sample_assessment_body "public_id") = true ∧
  (let (created, w1) :=
     app sample_env (POST_upload_assessment sample_assessment_body)
       (sample_world VNull) in
   ∃ id record,
     created = respond 201 record ∧ record !! "id" = Some (VStr id) ∧
     let (reply, w2) := app later_env (DELETE_assessments id) w1 in
     destroyed w2 =
       (destroyed (sample_world VNull)
          ++ [(get sample_assessment_body "public_id", "raw")])%list ∧
     videos w2 = videos (sample_world VNull) ∧
     reply = respond 200 (message "Assessment deleted successfully.") ∧
     assessments w2 = assessments (sample_world VNull) ∧
     stderr w2 = stderr (sample_world VNull)) ∧
  (let (created, w1) :=
     app sample_env (POST_upload_assessment sample_assessment_body)
       (sample_world VNull) in
   ∃ id record,
     created = respond 201 record ∧ record !! "id" = Some (VStr id) ∧
     let (reply, w2) := app outage_env (DELETE_assessments id) w1 in
     destroyed w2 =
       (destroyed (sample_world VNull)
          ++ [(get sample_assessment_body "public_id", "raw")])%list ∧
     videos w2 = videos (sample_world VNull) ∧
     reply = respond 500 (message internal_error_text) ∧
     assessments w2 = assessments w1 ∧ is_Some (assessments w2 !! id)).
Proof.
  split; [exact parsed_sample_assessment_body|].
  do 4 (split; [reflexivity|]).
  split.
  - apply (upload_then_delete_assessment sample_env later_env sample_assessment_body
             (sample_world VNull) parsed_sample_assessment_body
             eq_refl eq_refl eq_refl eq_refl).
  - apply (upload_then_delete_assessment sample_env outage_env sample_assessment_body
             (sample_world VNull) parsed_sample_assessment_body
             eq_refl eq_refl eq_refl eq_refl).
Defined.

(** ** Creating, then listing *)



(** X12.  The newest record comes first: when every video of the
    collection has a creation timestamp earlier than the commit time of
    an upload that is answered with 201, the new record is the first
    entry of the next list. *)
Theorem new_video_listed_first (e1 e2 : env) (req_body : object) (w : World) :
  status (app e1 (POST_upload_video req_body) w).1 = 201%Z →
  (∀ id doc, videos w !! id = Some doc →
             ∃ t, doc !! "createdAt" = Some (VTimestamp t) ∧ (t < store_now e1)%Z) →
  ∃ doc rest,
    videos (app e1 (POST_upload_video req_body) w).2 !! fresh (dom (videos w))
      = Some doc ∧
    (app e2 GET_videos (app e1 (POST_upload_video req_body) w).2).1 =
      {| status := 200;
         body := JArray (with_id <$> (fresh (dom (videos w)), doc) :: rest) |}.
Proof.
  rewrite app_upload_video. destruct (video_refused req_body); [discriminate|].
  intros _ Holder. cbn [snd].
  rewrite (list_records_reply e2 Videos). cbn [fst docs set_docs videos].
  set (id := fresh (dom (videos w))).
  set (doc := resolve (store_now e1) None <$> newVideoData _ _ _ _ _ _).
  assert (doc !! "createdAt" = Some (VTimestamp (store_now e1))) as Hcreated.
  { subst doc. rewrite lookup_fmap.
    by replace (newVideoData _ _ _ _ _ _ !! "createdAt") with (Some VServerTimestamp)
      by (vm_compute; reflexivity). }
  assert ((id, doc) ∈ query_desc "createdAt" (<[ id := doc ]> (videos w))) as Hnew.
  { apply elem_of_query_desc. split; [apply lookup_insert_eq|by rewrite Hcreated]. }
  pose proof (query_desc_sorted "createdAt" (<[ id := doc ]> (videos w))) as Hsorted.
  destruct (query_desc "createdAt" (<[ id := doc ]> (videos w)))
    as [|[id0 doc0] rest] eqn:Hlisting; [by apply elem_of_nil in Hnew|].
  exists doc, rest. split; [apply lookup_insert_eq|].
  assert ((id0, doc0) ∈ query_desc "createdAt" (<[ id := doc ]> (videos w))) as Hfirst.
  { rewrite Hlisting. apply list_elem_of_here. }
  apply elem_of_query_desc in Hfirst as [Hfirst _].
  apply lookup_insert_Some in Hfirst as [[<- <-]|[Hne Hold]]; [done|].
  exfalso.
  destruct (Holder id0 doc0 Hold) as (t & Ht & Hlt).
  apply elem_of_cons in Hnew as [Heq|Hrest]; [congruence|].
  apply StronglySorted_inv in Hsorted as [_ Hall].
  rewrite Forall_forall in Hall. specialize (Hall _ Hrest).
  apply (descending_timestamps "createdAt" (id0, doc0) (id, doc) t (store_now e1))
    in Hall; [lia|done..].
Qed.

Lemma new_video_listed_first_witness :
  status (app later_env
            (POST_upload_video (sample_video_body (VStr "Decimals") (VInt 95)))
            sample_video_world).1 = 201%Z ∧
  (∀ id doc, videos sample_video_world !! id = Some doc →
             ∃ t, doc !! "createdAt" = Some (VTimestamp t) ∧
                  (t < store_now later_env)%Z) ∧
  ∃ doc rest,
    videos (app later_env
              (POST_upload_video (sample_video_body (VStr "Decimals") (VInt 95)))
              sample_video_world).2 !! fresh (dom (videos sample_video_world))
      = Some doc ∧
    (app sample_env GET_videos
       (app later_env
          (POST_upload_video (sample_video_body (VStr "Decimals") (VInt 95)))
          sample_video_world).2).1 =
      {| status := 200;
         body := JArray (with_id <$>
                           (fresh (dom (videos sample_video_world)), doc) :: rest) |}.
Proof.
  assert (∀ id doc, videos sample_video_world !! id = Some doc →
                    ∃ t, doc !! "createdAt" = Some (VTimestamp t) ∧
                         (t < store_now later_env)%Z) as Holder.
  { intros id doc Hdoc. cbn [videos sample_video_world] in Hdoc.
    apply lookup_singleton_Some in Hdoc as [_ <-].
    exists 1690000000000000%Z. split; [reflexivity|]. cbn. lia. }
  split; [reflexivity|]. split; [exact Holder|].
  apply (new_video_listed_first later_env sample_env
           (sample_video_body (VStr "Decimals") (VInt 95)) sample_video_world
           eq_refl Holder).
Defined.

(** ** What a run of requests keeps *)

Lemma run_cons (e : env) (req : request) (trace : list (env * request)) (w : World) :
  run ((e, req) :: trace) w = run trace (app e req w).2.
Proof. reflexivity. Qed.

Lemma video_kept_step (e : env) (req : request) (id : string) (doc : object)
    (w : World) :
  videos w !! id = Some doc →
  ∃ doc', videos (app e req w).2 !! id = Some doc' ∧
          ∀ k, k ≠ "views" → k ≠ "completions" → doc' !! k = doc !! k.
Proof.
  intros Hid. rewrite videos_after.
  assert (∃ doc', videos w !! id = Some doc' ∧
            ∀ k, k ≠ "views" → k ≠ "completions" → doc' !! k = doc !! k) as Hsame
    by (by exists doc).
  destruct req as [|req_body| |req_body|id'|id'| |req_body|id' req_body|id'];
    try exact Hsame.
  - destruct (video_refused req_body); [exact Hsame|].
    rewrite lookup_insert_ne; [exact Hsame|].
    intros Heq. pose proof (fresh_video_id w) as Hfresh. congruence.
  - destruct (decide (id' = id)) as [->|Hne].
    + rewrite Hid, lookup_insert_eq. eexists. split; [done|].
      intros k Hk _. by rewrite lookup_insert_ne.
    + destruct (videos w !! id'); [|exact Hsame]. by rewrite lookup_insert_ne.
  - destruct (decide (id' = id)) as [->|Hne].
    + rewrite Hid, lookup_insert_eq. eexists. split; [done|].
      intros k _ Hk. by rewrite lookup_insert_ne.
    + destruct (videos w !! id'); [|exact Hsame]. by rewrite lookup_insert_ne.
Qed.

(** X13.  No request deletes a video or rewrites what describes it: a
    video that exists is still there after any run of requests, with the
    same [title], [subject], [teacher], [url], [public_id], [duration] and
    [createdAt], indeed with every property other than the two counters
    unchanged, whatever the record held. *)
Theorem videos_are_kept (trace : list (env * request)) (id : string) (doc : object)
    (w : World) :
  videos w !! id = Some doc →
  ∃ doc', videos (run trace w) !! id = Some doc' ∧
          ∀ k, k ≠ "views" → k ≠ "completions" → doc' !! k = doc !! k.
Proof.
  revert doc w. induction trace as [|[e req] trace IH]; intros doc w Hid.
  - by exists doc.
  - rewrite run_cons.
    destruct (video_kept_step e req id doc w Hid) as (doc1 & Hid1 & Hsame1).
    destruct (IH doc1 _ Hid1) as (doc' & Hid' & Hsame').
    exists doc'. split; [exact Hid'|].
    intros k Hk1 Hk2. by rewrite Hsame', Hsame1.
Qed.

Lemma videos_are_kept_witness :
  videos sample_video_world !! "v1" = Some (sample_video 7) ∧
  ∃ doc', videos (run sample_trace sample_video_world) !! "v1" = Some doc' ∧
          ∀ k, k ≠ "views" → k ≠ "completions" → doc' !! k = sample_video 7 !! k.
Proof.
  split; [reflexivity|].
  apply (videos_are_kept sample_trace "v1" (sample_video 7) sample_video_world).
  reflexivity.
Defined.

Lemma assessment_kept_step (e : env) (req : request) (id : string) (doc : object)
    (w : World) :
  assessments w !! id = Some doc →
  ¬ deletes id req →
  ∃ doc', assessments (app e req w).2 !! id = Some doc' ∧
          (∀ k, k ≠ "title" → doc' !! k = doc !! k) ∧
          (¬ retitles id req → doc' = doc).
Proof.
  intros Hid Hkeep. rewrite assessments_after.
  assert (∃ doc', assessments w !! id = Some doc' ∧
            (∀ k, k ≠ "title" → doc' !! k = doc !! k) ∧
            (¬ retitles id req → doc' = doc)) as Hsame
    by (by exists doc).
  destruct req as [|req_body| |req_body|id'|id'| |req_body|id' req_body|id'];
    try exact Hsame.
  - destruct (_ || _); [exact Hsame|].
    rewrite lookup_insert_ne; [exact Hsame|].
    intros Heq. pose proof (fresh_assessment_id w) as Hfresh. congruence.
  - destruct (negb _); [exact Hsame|].
    destruct (decide (id' = id)) as [->|Hne].
    + rewrite Hid, lookup_insert_eq. eexists. split; [done|]. split.
      * intros k Hk. by rewrite lookup_insert_ne.
      * intros Hnot. destruct Hnot. by exists req_body.
    + destruct (assessments w !! id'); [|exact Hsame]. by rewrite lookup_insert_ne.
  - destruct (assessments w !! id') as [doc'|]; [|exact Hsame].
    assert (id' ≠ id) as Hne by (intros ->; by apply Hkeep).
    destruct (truthy _); [destruct (uploader_destroy e _ _)|];
      first [exact Hsame|by rewrite lookup_delete_ne].
Qed.

(** X14.  An assessment changes only through its own PUT and goes only
    through its own DELETE: over a run that holds no DELETE of its
    identifier the record is still there with every property other than
    [title] unchanged, and when the run holds no PUT of its identifier
    either, the record is exactly what it was. *)
Theorem assessments_are_kept (trace : list (env * request)) (id : string)
    (doc : object) (w : World) :
  assessments w !! id = Some doc →
  Forall (λ step : env * request, ¬ deletes id step.2) trace →
  ∃ doc', assessments (run trace w) !! id = Some doc' ∧
          (∀ k, k ≠ "title" → doc' !! k = doc !! k) ∧
          (Forall (λ step : env * request, ¬ retitles id step.2) trace → doc' = doc).
Proof.
  revert doc w. induction trace as [|[e req] trace IH]; intros doc w Hid Hkeep.
  - by exists doc.
  - rewrite run_cons. apply Forall_cons in Hkeep as [Hkeep1 Hkeep].
    destruct (assessment_kept_step e req id doc w Hid Hkeep1)
      as (doc1 & Hid1 & Hsame1 & Heq1).
    destruct (IH doc1 _ Hid1 Hkeep) as (doc' & Hid' & Hsame' & Heq').
    exists doc'. split; [exact Hid'|]. split.
    + intros k Hk. by rewrite Hsame', Hsame1.
    + intros [Hno1 Hno]%Forall_cons. by rewrite Heq', Heq1.
Qed.

Lemma assessments_are_kept_witness :
  assessments (sample_world (VStr "joe-learn-assessments/q1")) !! "q1"
    = Some (sample_assessment (VStr "joe-learn-assessments/q1")) ∧
  Forall (λ step : env * request, ¬ deletes "q1" step.2)
    [(sample_env, POST_upload_assessment sample_assessment_body);
     (later_env, PUT_assessments "q1" sample_assessment_body);
     (later_env, DELETE_assessments "0")] ∧
  ∃ doc',
    assessments
      (run [(sample_env, POST_upload_assessment sample_assessment_body);
            (later_env, PUT_assessments "q1" sample_assessment_body);
            (later_env, DELETE_assessments "0")]
         (sample_world (VStr "joe-learn-assessments/q1"))) !! "q1" = Some doc' ∧
    (∀ k, k ≠ "title" →
          doc' !! k = sample_assessment (VStr "joe-learn-assessments/q1") !! k) ∧
    (Forall (λ step : env * request, ¬ retitles "q1" step.2)
       [(sample_env, POST_upload_assessment sample_assessment_body);
        (later_env, PUT_assessments "q1" sample_assessment_body);
        (later_env, DELETE_assessments "0")] →
     doc' = sample_assessment (VStr "joe-learn-assessments/q1")).
Proof.
  assert (Forall (λ step : env * request, ¬ deletes "q1" step.2)
            [(sample_env, POST_upload_assessment sample_assessment_body);
             (later_env, PUT_assessments "q1" sample_assessment_body);
             (later_env, DELETE_assessments "0")]) as Hkeep.
  { repeat apply Forall_cons_2; [discriminate..|apply Forall_nil_2]. }
  split; [reflexivity|]. split; [exact Hkeep|].
  apply (assessments_are_kept
           [(sample_env, POST_upload_assessment sample_assessment_body);
            (later_env, PUT_assessments "q1" sample_assessment_body);
            (later_env, DELETE_assessments "0")]
           "q1" (sample_assessment (VStr "joe-learn-assessments/q1"))
           (sample_world (VStr "joe-learn-assessments/q1")) eq_refl Hkeep).
Defined.

Lemma destroyed_after (e : env) (req : request) (w : World) :
  destroyed (app e req w).2 =
    match req with
    | DELETE_assessments id =>
        match assessments w !! id with
        | Some doc =>
            if truthy (get doc "public_id")
            then (destroyed w ++ [(get doc "public_id", "raw")])%list
            else destroyed w
        | None => destroyed w
        end
    | _ => destroyed w
    end.
Proof.
  destruct req as [|req_body| |req_body|id|id| |req_body|id req_body|id].
  - done.
  - rewrite generate_signature_reply. by destruct (api_sign_request e _ _).
  - by rewrite (list_records_reply e Videos).
  - rewrite app_upload_video. by destruct (video_refused req_body).
  - rewrite (app_increment e (POST_videos_view id) id "views" _ _ w eq_refl).
    by destruct (videos w !! id).
  - rewrite (app_increment e (POST_videos_complete id) id "completions" _ _ w eq_refl).
    by destruct (videos w !! id).
  - by rewrite (list_records_reply e Assessments).
  - rewrite app_upload_assessment. by destruct (assessment_refused req_body).
  - rewrite app_update_assessment. destruct (negb _); [done|].
    by destruct (assessments w !! id).
  - rewrite app_delete_assessment. destruct (assessments w !! id) as [doc|]; [|done].
    destruct (truthy (get doc "public_id")); [|done].
    by destruct (uploader_destroy e _ _).
Qed.

(** X15.  The storage provider is called by the DELETE route only, at
    most once per DELETE request, never with a falsy [public_id] and
    never with a resource type other than raw; calls already made are
    never forgotten.  So no request ever asks the provider to destroy a
    video. *)
Theorem destroy_calls_of_a_run (trace : list (env * request)) (w : World) :
  ∃ calls,
    destroyed (run trace w) = (destroyed w ++ calls)%list ∧
    Forall raw_call calls ∧
    (Z.of_nat (length calls) ≤ tally is_delete trace)%Z.
Proof.
  revert w. induction trace as [|[e req] trace IH]; intros w.
  - exists []. split; [by rewrite app_nil_r|]. split; [done|]. cbn. lia.
  - rewrite run_cons. destruct (IH (app e req w).2) as (calls & Hcalls & Hraw & Hcount).
    rewrite Hcalls, destroyed_after. cbn [tally snd].
    assert ((if is_delete req then 1 else 0) = 0 →
            ∃ calls',
              (destroyed w ++ calls = destroyed w ++ calls')%list ∧
              Forall raw_call calls' ∧
              (Z.of_nat (length calls') ≤
               (if is_delete req then 1 else 0) + tally is_delete trace)%Z)%Z as Hnone.
    { intros Hzero. exists calls. rewrite Hzero. split; [done|]. split; [done|lia]. }
    destruct req as [|req_body| |req_body|id|id| |req_body|id req_body|id];
      try (by apply Hnone).
    cbn [is_delete].
    destruct (assessments w !! id) as [doc|];
      [|exists calls; split; [done|]; split; [done|lia]].
    destruct (truthy (get doc "public_id")) eqn:Htruthy;
      [|exists calls; split; [done|]; split; [done|lia]].
    exists ((get doc "public_id", "raw") :: calls).
    split; [by rewrite <- app_assoc|]. split.
    + apply Forall_cons_2; [by split|done].
    + cbn [length]. lia.
Qed.

(** ** Replies and what they leave behind *)

Ltac route_cases e req w :=
  destruct req as [|?req_body| |?req_body|?id|?id| |?req_body|?id ?req_body|?id];
  [ rewrite app_root
  | rewrite generate_signature_reply; destruct (api_sign_request e _ _)
  | rewrite (list_records_reply e Videos)
  | rewrite app_upload_video; destruct (video_refused _)
  | rewrite (app_increment e (POST_videos_view id) id "views" _ _ w eq_refl);
    destruct (videos w !! id)
  | rewrite (app_increment e (POST_videos_complete id) id "completions" _ _ w eq_refl);
    destruct (videos w !! id)
  | rewrite (list_records_reply e Assessments)
  | rewrite app_upload_assessment; destruct (assessment_refused _)
  | rewrite app_update_assessment; destruct (negb _);
    [|destruct (assessments w !! id)]
  | rewrite app_delete_assessment; destruct (assessments w !! id) as [?doc|];
    [destruct (truthy (get doc "public_id"));
     [destruct (uploader_destroy e _ _)|]|] ].

(** X16.  A request that is refused leaves no trace: whenever the reply
    is 400 or 404, on any route, the world after the request is the world
    before it, collections, calls to the storage provider and error log
    alike. *)
Theorem refused_request_changes_nothing (e : env) (req : request) (w : World) :
  status (app e req w).1 = 400%Z ∨ status (app e req w).1 = 404%Z →
  (app e req w).2 = w.
Proof.
  route_cases e req w; cbn [fst snd status respond];
    intros [Hstatus|Hstatus]; first [discriminate Hstatus|done].
Qed.

Lemma refused_request_changes_nothing_witness :
  (status (app sample_env (PUT_assessments "q1" ∅) (sample_world VNull)).1 = 400%Z ∨
   status (app sample_env (PUT_assessments "q1" ∅) (sample_world VNull)).1 = 404%Z) ∧
  (app sample_env (PUT_assessments "q1" ∅) (sample_world VNull)).2 = sample_world VNull.
Proof.
  assert (status (app sample_env (PUT_assessments "q1" ∅) (sample_world VNull)).1
          = 400%Z ∨
          status (app sample_env (PUT_assessments "q1" ∅) (sample_world VNull)).1
          = 404%Z) as Hstatus by (left; reflexivity).
  split; [exact Hstatus|].
  apply (refused_request_changes_nothing sample_env (PUT_assessments "q1" ∅)
           (sample_world VNull) Hstatus).
Defined.

(** X17.  Every reply has one of the statuses 200, 201, 400, 404, 500.
    The error log only grows, and it grows exactly when the reply is 500;
    a 500 reply carries one of two fixed messages, whatever the error
    was. *)
Theorem error_log_and_500 (e : env) (req : request) (w : World) :
  let (reply, w') := app e req w in
  status reply ∈ [200; 201; 400; 404; 500]%Z ∧
  ∃ entries,
    stderr w' = (stderr w ++ entries)%list ∧
    (entries ≠ [] ↔ status reply = 500%Z) ∧
    (status reply = 500%Z →
     body reply = JObject (message internal_error_text) ∨
     body reply = JObject (message signature_error_text)).
Proof.
  assert (∀ code : Z, code ∈ [200; 201; 400; 404; 500]%Z ↔
            code = 200 ∨ code = 201 ∨ code = 400 ∨ code = 404 ∨ code = 500)%Z
    as Hcodes.
  { intros code. rewrite !elem_of_cons, elem_of_nil. tauto. }
  route_cases e req w; cbn [status body respond stderr set_docs logged after_destroy];
    (split; [apply Hcodes; tauto|]);
    first
      [ exists []; split; [by rewrite app_nil_r|];
        split; [split; [done|discriminate]|discriminate]
      | eexists; split; [reflexivity|];
        split; [split; [done|discriminate]|]; intros _; by (left + right) ].
Qed.

(** ** Increments in either order *)

Lemma increment_ignores_clock now now' old :
  resolve now old (VIncrement 1) = resolve now' old (VIncrement 1).
Proof. reflexivity. Qed.

Lemma app_counter_request (e : env) (views : bool) (id : string) (w : World) :
  (app e (counter_request views id) w).2 =
    match videos w !! id with
    | Some doc =>
        set_docs Videos
          (<[ id := <[ counter_field views :=
                         resolve 0 (doc !! counter_field views) (VIncrement 1) ]> doc ]>
             (videos w)) w
    | None =>
        logged [((if views then "Error updating view count:"
                  else "Error updating completion count:"),
                 NotFound (document_path Videos id));
                ("An unhandled error occurred:", NotFound (document_path Videos id))] w
    end.
Proof.
  destruct views; cbn [counter_request counter_field].
  - rewrite (app_increment e (POST_videos_view id) id "views" _ _ w eq_refl).
    by destruct (videos w !! id).
  - rewrite (app_increment e (POST_videos_complete id) id "completions" _ _ w eq_refl).
    by destruct (videos w !! id).
Qed.

(** X18.  Two increments on existing videos give the same world in
    either order, whether they are on the same video or not and on the
    same counter or not, and whatever the counters hold. *)
Theorem increments_commute (e1 e2 e3 e4 : env) (views1 views2 : bool)
    (id1 id2 : string) (doc1 doc2 : object) (w : World) :
  videos w !! id1 = Some doc1 →
  videos w !! id2 = Some doc2 →
  (app e2 (counter_request views2 id2) (app e1 (counter_request views1 id1) w).2).2 =
  (app e4 (counter_request views1 id1) (app e3 (counter_request views2 id2) w).2).2.
Proof.
  intros Hid1 Hid2.
  rewrite (app_counter_request e1), Hid1, (app_counter_request e3), Hid2.
  rewrite !app_counter_request. cbn [set_docs videos].
  destruct (decide (id1 = id2)) as [->|Hne].
  - rewrite !lookup_insert_eq. cbn [set_docs videos assessments destroyed stderr].
    rewrite !insert_insert_eq. replace doc2 with doc1 by congruence.
    destruct views1, views2; cbn [counter_field]; try done.
    + rewrite !lookup_insert_ne by done.
      by rewrite (insert_insert_ne _ "completions" "views").
    + rewrite !lookup_insert_ne by done.
      by rewrite (insert_insert_ne _ "completions" "views").
  - rewrite !lookup_insert_ne by done. rewrite Hid1, Hid2.
    cbn [set_docs videos assessments destroyed stderr].
    by rewrite (insert_insert_ne _ id2 id1) by done.
Qed.

Lemma increments_commute_witness :
  videos sample_video_world !! "v1" = Some (sample_video 7) ∧
  (app sample_env (counter_request false "v1")
     (app sample_env (counter_request true "v1") sample_video_world).2).2 =
  (app later_env (counter_request true "v1")
     (app later_env (counter_request false "v1") sample_video_world).2).2.
Proof.
  split; [reflexivity|].
  apply (increments_commute sample_env sample_env later_env later_env true false
           "v1" "v1" (sample_video 7) (sample_video 7) sample_video_world);
    reflexivity.
Defined.

(** ** Identifiers in a list, and the size of a collection *)

Lemma no_own_id_step (e : env) (req : request) (w : World) :
  no_own_id w → no_own_id (app e req w).2.
Proof.
  intros [Hvideos Hassessments]. split.
  - intros id doc. rewrite videos_after.
    destruct req as [|req_body| |req_body|id'|id'| |req_body|id' req_body|id'];
      try apply Hvideos.
    + destruct (video_refused req_body); [apply Hvideos|].
      intros [[_ <-]|[_ Hdoc]]%lookup_insert_Some; [|by eapply Hvideos].
      rewrite lookup_fmap.
      by replace (newVideoData _ _ _ _ _ _ !! "id") with (@None value)
        by (vm_compute; reflexivity).
    + destruct (videos w !! id') as [doc'|] eqn:Hid'; [|apply Hvideos].
      intros [[_ <-]|[_ Hdoc]]%lookup_insert_Some; [|by eapply Hvideos].
      rewrite lookup_insert_ne by done. by eapply Hvideos.
    + destruct (videos w !! id') as [doc'|] eqn:Hid'; [|apply Hvideos].
      intros [[_ <-]|[_ Hdoc]]%lookup_insert_Some; [|by eapply Hvideos].
      rewrite lookup_insert_ne by done. by eapply Hvideos.
  - intros id doc. rewrite assessments_after.
    destruct req as [|req_body| |req_body|id'|id'| |req_body|id' req_body|id'];
      try apply Hassessments.
    + destruct (_ || _); [apply Hassessments|].
      intros [[_ <-]|[_ Hdoc]]%lookup_insert_Some; [|by eapply Hassessments].
      rewrite lookup_fmap.
      by replace (newAssessmentData _ _ _ _ !! "id") with (@None value)
        by (vm_compute; reflexivity).
    + destruct (negb _); [apply Hassessments|].
      destruct (assessments w !! id') as [doc'|] eqn:Hid'; [|apply Hassessments].
      intros [[_ <-]|[_ Hdoc]]%lookup_insert_Some; [|by eapply Hassessments].
      rewrite lookup_insert_ne by done. by eapply Hassessments.
    + destruct (assessments w !! id') as [doc'|]; [|apply Hassessments].
      destruct (truthy _); [destruct (uploader_destroy e _ _)|];
        first [apply Hassessments
              |intros [_ Hdoc]%lookup_delete_Some; by eapply Hassessments].
Qed.

Lemma no_own_id_run (trace : list (env * request)) (w : World) :
  no_own_id w → no_own_id (run trace w).
Proof.
  revert w. induction trace as [|[e req] trace IH]; intros w Hok; [done|].
  rewrite run_cons. apply IH. by apply no_own_id_step.
Qed.

(** X19.  In a list reply, [id] is the identifier of the document unless
    the stored record has a property [id] of its own, which then takes
    its place.  The application never stores such a property: starting
    from records without one, after any run of requests the entries of a
    list reply are those of the records of the collection that have a
    creation timestamp, one entry per record; every entry carries the
    identifier of its record as [id] and, besides it, exactly the
    properties of the record; and no two entries of a reply have the same
    [id]. *)
Theorem list_entries_carry_document_ids
    (trace : list (env * request)) (e : env) (c : collection) (w : World) :
  no_own_id w →
  (∀ id (doc : object) v, doc !! "id" = Some v → with_id (id, doc) !! "id" = Some v) ∧
  ∃ listing : list (string * object),
    (app e (list_request c) (run trace w)).1 =
      {| status := 200; body := JArray (with_id <$> listing) |} ∧
    (∀ id doc, (id, doc) ∈ listing ↔
               docs c (run trace w) !! id = Some doc ∧ is_Some (doc !! "createdAt")) ∧
    NoDup listing.*1 ∧
    Forall (λ entry, with_id entry !! "id" = Some (VStr entry.1) ∧
                     ∀ k, k ≠ "id" → with_id entry !! k = entry.2 !! k) listing ∧
    NoDup ((λ item : object, item !! "id") <$> (with_id <$> listing)).
Proof.
  intros Hclean. split.
  { intros id doc v Hv. unfold with_id, assign. by apply lookup_union_Some_l. }
  apply (no_own_id_run trace) in Hclean.
  assert (∀ id doc, (id, doc) ∈ query_desc "createdAt" (docs c (run trace w)) →
                    with_id (id, doc) !! "id" = Some (VStr id) ∧
                    ∀ k, k ≠ "id" → with_id (id, doc) !! k = doc !! k) as Hentry.
  { intros id doc [Hdoc _]%elem_of_query_desc.
    assert (doc !! "id" = None) as Hnone.
    { destruct Hclean as [Hvideos Hassessments].
      destruct c; [by eapply Hvideos|by eapply Hassessments]. }
    pose proof (with_id_entry id doc) as Hitem. unfold entry_of in Hitem. split.
    - rewrite Hitem, Hnone. by rewrite decide_True.
    - intros k Hk. rewrite Hitem. destruct (doc !! k); [done|].
      by rewrite decide_False. }
  exists (query_desc "createdAt" (docs c (run trace w))).
  split; [by rewrite list_records_reply|].
  split; [intros id doc; apply elem_of_query_desc|].
  split; [apply query_desc_NoDup|]. split.
  - apply Forall_forall. intros [id doc] Hin. by apply Hentry.
  - assert ((λ item : object, item !! "id") <$>
              (with_id <$> query_desc "createdAt" (docs c (run trace w))) =
            (λ id : string, Some (VStr id)) <$>
              (query_desc "createdAt" (docs c (run trace w))).*1) as ->.
    { rewrite <- !list_fmap_compose. apply list_fmap_ext.
      intros i [id doc] Hin%list_elem_of_lookup_2. cbn. by apply Hentry. }
    apply NoDup_fmap_2; [|apply query_desc_NoDup].
    intros id1 id2 Heq. congruence.
Qed.

Lemma no_own_id_empty : no_own_id empty_world.
Proof. split; intros id doc Hdoc; cbn in Hdoc; by rewrite lookup_empty in Hdoc. Qed.

Lemma list_entries_carry_document_ids_witness :
  no_own_id empty_world ∧
  ∃ listing : list (string * object),
    (app later_env (list_request Assessments)
       (run [(sample_env, POST_upload_assessment sample_assessment_body)]
          empty_world)).1 =
      {| status := 200; body := JArray (with_id <$> listing) |} ∧
    (∀ id doc, (id, doc) ∈ listing ↔
               docs Assessments
                 (run [(sample_env, POST_upload_assessment sample_assessment_body)]
                    empty_world) !! id = Some doc ∧
               is_Some (doc !! "createdAt")) ∧
    NoDup listing.*1 ∧
    Forall (λ entry, with_id entry !! "id" = Some (VStr entry.1) ∧
                     ∀ k, k ≠ "id" → with_id entry !! k = entry.2 !! k) listing ∧
    NoDup ((λ item : object, item !! "id") <$> (with_id <$> listing)).
Proof.
  split; [exact no_own_id_empty|].
  apply (list_entries_carry_document_ids
           [(sample_env, POST_upload_assessment sample_assessment_body)]
           later_env Assessments empty_world no_own_id_empty).
Defined.

Lemma videos_size_step (e : env) (req : request) (w : World) :
  Z.of_nat (size (videos (app e req w).2)) =
    (Z.of_nat (size (videos w)) + (if is_accepted_video req then 1 else 0))%Z.
Proof.
  rewrite videos_after.
  destruct req as [|req_body| |req_body|id|id| |req_body|id req_body|id];
    cbn [is_accepted_video]; try lia.
  - destruct (video_refused req_body); cbn [negb]; [lia|].
    rewrite map_size_insert_None by apply fresh_video_id. lia.
  - destruct (videos w !! id) as [doc|] eqn:Hid; [|lia].
    rewrite map_size_insert_Some by done. lia.
  - destruct (videos w !! id) as [doc|] eqn:Hid; [|lia].
    rewrite map_size_insert_Some by done. lia.
Qed.

(** X20.  The number of videos grows by one with every upload that is
    answered with 201 and never changes otherwise: after any run of
    requests it is the number before the run plus the number of accepted
    uploads in the run. *)
Theorem videos_count_accepted_uploads (trace : list (env * request)) (w : World) :
  Z.of_nat (size (videos (run trace w))) =
    (Z.of_nat (size (videos w)) + tally is_accepted_video trace)%Z ∧
  ∀ e req_body w0,
    is_accepted_video (POST_upload_video req_body) = true ↔
    status (app e (POST_upload_video req_body) w0).1 = 201%Z.
Proof.
  split.
  - revert w. induction trace as [|[e req] trace IH]; intros w; [cbn; lia|].
    rewrite run_cons, IH, videos_size_step. cbn [tally snd]. lia.
  - intros e req_body w0. rewrite upload_video_status. cbn [is_accepted_video].
    destruct (video_refused req_body); cbn; split; congruence.
Qed.

(** ** Start-up *)


(** ** The reply to a creation and the record behind it *)

(** X22.  The record in a 201 reply is the record that was written, but
    for two properties: it has the new identifier as [id], which the
    stored record does not hold, and its [createdAt] is the clock of the
    server as text, while the stored [createdAt] is the commit time of the
    store.  On every other property the two agree.  This holds for a new
    video and for a new assessment. *)
Theorem created_reply_matches_record (e : env) (req_body : object) (w : World) :
  parsed req_body →
  (∀ req, req = POST_upload_video req_body ∨ req = POST_upload_assessment req_body →
     status (app e req w).1 = 201%Z →
     ∃ id record doc,
       (app e req w).1 = respond 201 record ∧
       (videos (app e req w).2 !! id = Some doc ∧ videos w !! id = None ∨
        assessments (app e req w).2 !! id = Some doc ∧ assessments w !! id = None) ∧
       record !! "id" = Some (VStr id) ∧ doc !! "id" = None ∧
       record !! "createdAt" = Some (VStr (toISOString e (js_now e))) ∧
       doc !! "createdAt" = Some (VTimestamp (store_now e)) ∧
       ∀ k, k ≠ "id" → k ≠ "createdAt" → record !! k = doc !! k).
Proof.
  intros Hparsed req [-> | ->].
  - rewrite app_upload_video. destruct (video_refused req_body); [discriminate|].
    intros _. rewrite stored_video_resolve by (by apply parsed_get).
    cbn [fst snd set_docs videos].
    eexists _, _, _. split; [reflexivity|]. split.
    { left. split; [apply lookup_insert_eq|apply fresh_video_id]. }
    unfold returned_video, stored_video.
    split; [rewrite lookup_insert_ne by done; apply lookup_insert_eq|].
    split.
    { rewrite lookup_insert_ne by done. vm_compute. reflexivity. }
    split; [apply lookup_insert_eq|]. split; [apply lookup_insert_eq|].
    intros k Hk1 Hk2. by rewrite !lookup_insert_ne.
  - rewrite app_upload_assessment. destruct (assessment_refused req_body); [discriminate|].
    intros _. rewrite stored_assessment_resolve by (by apply parsed_get).
    cbn [fst snd set_docs assessments].
    eexists _, _, _. split; [reflexivity|]. split.
    { right. split; [apply lookup_insert_eq|apply fresh_assessment_id]. }
    unfold returned_assessment, stored_assessment.
    split; [rewrite lookup_insert_ne by done; apply lookup_insert_eq|].
    split.
    { rewrite lookup_insert_ne by done. vm_compute. reflexivity. }
    split; [apply lookup_insert_eq|]. split; [apply lookup_insert_eq|].
    intros k Hk1 Hk2. by rewrite !lookup_insert_ne.
Qed.

Lemma created_reply_matches_record_witness :
  parsed sample_assessment_body ∧
  status (app sample_env (POST_upload_assessment sample_assessment_body)
            sample_video_world).1 = 201%Z ∧
  ∃ id record doc,
    (app sample_env (POST_upload_assessment sample_assessment_body)
       sample_video_world).1 = respond 201 record ∧
    (videos (app sample_env (POST_upload_assessment sample_assessment_body)
               sample_video_world).2 !! id = Some doc ∧
     videos sample_video_world !! id = None ∨
     assessments (app sample_env (POST_upload_assessment sample_assessment_body)
                    sample_video_world).2 !! id = Some doc ∧
     assessments sample_video_world !! id = None) ∧
    record !! "id" = Some (VStr id) ∧ doc !! "id" = None ∧
    record !! "createdAt" = Some (VStr (toISOString sample_env (js_now sample_env))) ∧
    doc !! "createdAt" = Some (VTimestamp (store_now sample_env)) ∧
    ∀ k, k ≠ "id" → k ≠ "createdAt" → record !! k = doc !! k.
Proof.
  split; [exact parsed_sample_assessment_body|]. split; [reflexivity|].
  apply (created_reply_matches_record sample_env sample_assessment_body
           sample_video_world parsed_sample_assessment_body
           (POST_upload_assessment sample_assessment_body));
    [right; reflexivity|reflexivity].
Defined.
